(** * Orders Invoice API: a shallow embedding of [main.py]

    The service reads an HTML export of e-commerce orders, extracts one
    record per order block, renders the records into one printable HTML
    report and optionally forwards the report to a Telegram chat.

    Layout of this development:
    - [Py]: the fragment of Python's [str] the program relies on;
    - [Bs4]: the BeautifulSoup tree and the queries the program issues;
    - the parsers, the renderer, the Telegram adapter and the [/process]
      route, each under the name it has in [main.py];
    - the properties of the program. *)

From Stdlib Require Import String Ascii List Bool Arith Lia DecimalString.
Import ListNotations.
Open Scope string_scope.
#[local] Set Warnings "-register-all".

(** ** Python strings

    A Python [str] is modelled by its UTF-8 encoding, a Rocq [string] of
    bytes.  UTF-8 is self-synchronising, so searching for and replacing a
    well-formed substring acts on the encoding exactly as on code points. *)
Module Py.

(** Truthiness of a [str]: only the empty string is falsy. *)
Definition truthy (s : string) : bool :=
  match s with
  | EmptyString => false
  | String _ _ => true
  end.

(** Truthiness of an [Optional[str]]: [None] and the empty string are falsy. *)
Definition truthy_opt (o : option string) : bool :=
  match o with
  | None => false
  | Some s => truthy s
  end.

Definition bytes_of (codes : list nat) : string :=
  string_of_list_ascii (map ascii_of_nat codes).

(** The double-quote character. *)
Definition dq : string := bytes_of [34].

(** [str(n)] for a non-negative integer. *)
Definition str_of_nat (n : nat) : string :=
  NilEmpty.string_of_uint (Nat.to_uint n).

(** The characters for which [str.isspace] holds, in UTF-8:
    U+0009..U+000D, U+001C..U+0020, U+0085, U+00A0, U+1680,
    U+2000..U+200A, U+2028, U+2029, U+202F, U+205F and U+3000. *)
Definition whitespace : list string :=
  map bytes_of
    [ [9]; [10]; [11]; [12]; [13]; [28]; [29]; [30]; [31]; [32];
      [194; 133]; [194; 160]; [225; 154; 128];
      [226; 128; 128]; [226; 128; 129]; [226; 128; 130]; [226; 128; 131];
      [226; 128; 132]; [226; 128; 133]; [226; 128; 134]; [226; 128; 135];
      [226; 128; 136]; [226; 128; 137]; [226; 128; 138];
      [226; 128; 168]; [226; 128; 169]; [226; 128; 175];
      [226; 129; 159]; [227; 128; 128] ].

(** Number of bytes of the whitespace character [s] starts with, [0] when
    it starts with none. *)
Definition space_width (s : string) : nat :=
  match find (fun w => prefix w s) whitespace with
  | Some w => String.length w
  | None => 0
  end.

(** [skip] counts the bytes of the current whitespace character that are
    still to be dropped. *)
Fixpoint lstrip_from (skip : nat) (s : string) : string :=
  match s with
  | EmptyString => EmptyString
  | String c s' =>
      match skip with
      | S k => lstrip_from k s'
      | O =>
          match space_width s with
          | O => s
          | S k => lstrip_from k s'
          end
      end
  end.

(** [str.lstrip()] *)
Definition lstrip (s : string) : string := lstrip_from 0 s.

(** [str.rstrip()]: the tail is stripped first; what is left of it ends in
    a non-space character unless it is empty. *)
Fixpoint rstrip (s : string) : string :=
  match s with
  | EmptyString => EmptyString
  | String c s' =>
      let r := String c (rstrip s') in
      if truthy (lstrip r) then r else EmptyString
  end.

(** [str.strip()] *)
Definition strip (s : string) : string := rstrip (lstrip s).

(** The loop of [s.replace(old, new)] with [new] empty and [old] not empty:
    matches are taken left to right and do not overlap; [skip] counts the
    bytes of the current match that are still to be dropped. *)
Fixpoint remove_from (old : string) (skip : nat) (s : string) : string :=
  match s with
  | EmptyString => EmptyString
  | String c s' =>
      match skip with
      | S k => remove_from old k s'
      | O =>
          if prefix old s
          then remove_from old (String.length old - 1) s'
          else String c (remove_from old 0 s')
      end
  end.

(** [s.replace(old, new)] with [new] empty; replacing the empty string by
    itself changes nothing. *)
Definition remove (old s : string) : string :=
  if truthy old then remove_from old 0 s else s.

(** [needle in hay] *)
Fixpoint contains (needle hay : string) : bool :=
  prefix needle hay ||
  match hay with
  | EmptyString => false
  | String _ hay' => contains needle hay'
  end.

(** [sep.join(parts)] with [sep] empty. *)
Definition join (parts : list string) : string :=
  fold_right String.append EmptyString parts.

End Py.

(** ** The BeautifulSoup tree

    A parsed document is a tree of tags and text nodes.  Of a tag the program
    reads the name, the values of the [class] attribute (bs4 keeps [class]
    as a list of whitespace-separated values) and the children.  Comments,
    and the strings of [script], [style] and [template] elements, which
    [get_text] leaves out, are not part of these trees. *)
Module Bs4.

Inductive node : Type :=
| NavigableString (text : string)
| Tag (name : string) (classes : list string) (contents : list node).

Definition is_tag (n : node) : bool :=
  match n with
  | Tag _ _ _ => true
  | NavigableString _ => false
  end.

(** [tag.descendants]: every node below [n], in document order. *)
Fixpoint descendants (n : node) : list node :=
  match n with
  | NavigableString _ => []
  | Tag _ _ cs => flat_map (fun c => c :: descendants c) cs
  end.

(** The same walk, every node paired with its [.parent] (first component). *)
Fixpoint descendants_with_parent (p : node) : list (node * node) :=
  match p with
  | NavigableString _ => []
  | Tag _ _ cs => flat_map (fun c => (p, c) :: descendants_with_parent c) cs
  end.

(** [tag.string]: the text of a node whose subtree is a chain of only
    children ending in a text node, [None] otherwise. *)
Fixpoint string_of (n : node) : option string :=
  match n with
  | NavigableString s => Some s
  | Tag _ _ [c] => string_of c
  | Tag _ _ _ => None
  end.

Definition has_name (name : string) (n : node) : bool :=
  match n with
  | Tag nm _ _ => String.eqb nm name
  | NavigableString _ => false
  end.

(** The filter [class_=cls] for a [cls] without spaces: one of the values
    of the tag's [class] attribute is [cls]. *)
Definition has_class (cls : string) (n : node) : bool :=
  match n with
  | Tag _ classes _ => existsb (String.eqb cls) classes
  | NavigableString _ => false
  end.

(** The filter [string=s] for a non-empty [s]: [tag.string] is exactly [s]. *)
Definition has_string (s : string) (n : node) : bool :=
  match string_of n with
  | Some t => String.eqb t s
  | None => false
  end.

(** [n.find_all(name)] *)
Definition find_all (name : string) (n : node) : list node :=
  filter (has_name name) (descendants n).

(** [n.find_all(name, class_=cls)] *)
Definition find_all_class (name cls : string) (n : node) : list node :=
  filter (fun d => has_name name d && has_class cls d) (descendants n).

(** [n.find(name)]: the first match in document order, if any. *)
Definition find (name : string) (n : node) : option node :=
  List.find (has_name name) (descendants n).

(** [n.find(name, class_=cls)] *)
Definition find_class (name cls : string) (n : node) : option node :=
  List.find (fun d => has_name name d && has_class cls d) (descendants n).

(** [n.find(name, string=s)], returned together with the match's parent. *)
Definition find_string (name s : string) (n : node) : option (node * node) :=
  List.find (fun pc => has_name name (snd pc) && has_string s (snd pc))
            (descendants_with_parent n).

(** The text nodes below [n], in document order. *)
Definition all_strings (n : node) : list string :=
  flat_map (fun d => match d with
                     | NavigableString s => [s]
                     | Tag _ _ _ => []
                     end) (descendants n).

(** [n.get_text(strip=True)]: every text node is stripped on its own, the
    ones left empty are dropped, and the rest are joined without separator. *)
Definition get_text_strip (n : node) : string :=
  Py.join (filter Py.truthy (map Py.strip (all_strings n))).

End Bs4.

(** ** Parsers *)

Import Bs4.

(** The dictionaries [extract_order_data] builds have a fixed set of keys
    with [str] values, so they are modelled as records.  The renderer reads
    them with [.get(key, default)]: on these records the key is always
    present. *)
Record ProductLine : Type := mkProductLine {
  name : string;
  attrs : string;
  code : string;
  quantity : string
}.

Record OrderRecord : Type := mkOrderRecord {
  order_number : string;
  order_date : string;
  full_name : string;
  phone : string;
  zipcode : string;
  address : string;
  products : list ProductLine
}.

(** [soup.find_all("table", class_="wrapper")] *)
Definition extract_orders (soup : node) : list node :=
  find_all_class "table" "wrapper" soup.

(** The inner function of [extract_order_data].  A tag is always truthy and
    a tag found below [order_soup] always has a parent, so the guard
    [span and span.parent] holds exactly when [find] returns a tag. *)
Definition get_text_by_caption (order_soup : node) (caption : string) : string :=
  match find_string "span" caption order_soup with
  | Some (parent, span) => Py.remove caption (get_text_strip parent)
  | None => EmptyString
  end.

Definition caption_order_number : string := "شماره سفارش: ".
Definition caption_order_date : string := "تاریخ ثبت سفارش: ".
Definition caption_full_name : string := "نام و نام‌خانوادگی: ".
Definition caption_phone : string := "شماره تماس:".
Definition caption_zipcode : string := "کد پستی گیرنده:".
Definition caption_address : string := "آدرس گیرنده:".

(** [x.get_text(strip=True)] if [x] was found, the empty string otherwise. *)
Definition text_or_empty (x : option node) : string :=
  match x with
  | Some t => get_text_strip t
  | None => EmptyString
  end.

(** One turn of the loop over the rows of the products table: [None] when
    the row is passed over by [continue], the dictionary appended to
    [products] otherwise.  The pattern fails exactly when [len(tds) < 4].
    Nothing in the [try] block can raise (every [get_text] is applied to a
    tag that was found), so the [except] branch is never taken. *)
Definition product_of_row (row : node) : option ProductLine :=
  match find_all "td" row with
  | _ :: product_info :: td2 :: td3 :: _ =>
      match find "h2" product_info with
      | None => None
      | Some h2 =>
          Some {| name := get_text_strip h2;
                  attrs := text_or_empty (find_class "span" "product-attrs" product_info);
                  code := text_or_empty (find "span" td2);
                  quantity := text_or_empty (find "span" td3) |}
      end
  | _ => None
  end.

(** The loop [for row in products_table.find_all("tr")], appending to
    [products]. *)
Definition products_of_table (products_table : node) : list ProductLine :=
  fold_left (fun products row =>
               match product_of_row row with
               | Some p => (products ++ [p])%list
               | None => products
               end)
            (find_all "tr" products_table) [].

Definition extract_order_data (order_soup : node) : OrderRecord :=
  let order_number := get_text_by_caption order_soup caption_order_number in
  let order_date := get_text_by_caption order_soup caption_order_date in
  let full_name := get_text_by_caption order_soup caption_full_name in
  let phone := get_text_by_caption order_soup caption_phone in
  let zipcode := get_text_by_caption order_soup caption_zipcode in
  let address := get_text_by_caption order_soup caption_address in
  let products :=
    match find_class "table" "products" order_soup with
    | Some products_table => products_of_table products_table
    | None => []
    end in
  {| order_number := order_number;
     order_date := order_date;
     full_name := full_name;
     phone := phone;
     zipcode := zipcode;
     address := address;
     products := products |}.

(** ** Renderer

    The four f-strings of [generate_html_for_orders], byte for byte. *)

Definition product_row_html (p : ProductLine) : string :=
  "
            <tr>
                <td>" ++ p.(name) ++ "</td>
                <td>" ++ p.(attrs) ++ "</td>
                <td>" ++ p.(code) ++ "</td>
                <td>" ++ p.(quantity) ++ "</td>
            </tr>
            ".

Definition products_table_html (product_rows : string) : string :=
  "
        <table class=" ++ Py.dq ++ "products" ++ Py.dq ++ ">
            <thead>
                <tr>
                    <th>نام محصول</th>
                    <th>ویژگی‌ها</th>
                    <th>کد</th>
                    <th>تعداد</th>
                </tr>
            </thead>
            <tbody>
                " ++ product_rows ++ "
            </tbody>
        </table>
        ".

Definition order_html (i : nat) (products_table : string) (order : OrderRecord) : string :=
  "
        <section style=" ++ Py.dq ++ "border:1px solid #ccc; margin-bottom:30px; padding:10px;" ++ Py.dq ++ ">
            <h2>سفارش شماره " ++ Py.str_of_nat i ++ "</h2>
            " ++ products_table ++ "
            <div><strong>شماره سفارش:</strong> " ++ order.(order_number) ++ "</div>
            <div><strong>تاریخ ثبت سفارش:</strong> " ++ order.(order_date) ++ "</div>
            <div><strong>نام و نام‌خانوادگی:</strong> " ++ order.(full_name) ++ "</div>
            <div><strong>شماره تماس:</strong> " ++ order.(phone) ++ "</div>
            <div><strong>کد پستی گیرنده:</strong> " ++ order.(zipcode) ++ "</div>
            <div><strong>آدرس گیرنده:</strong> " ++ order.(address) ++ "</div>
        </section>
        ".

Definition document_html (all_orders_html : string) : string :=
  "
    <!DOCTYPE html>
    <html lang=" ++ Py.dq ++ "fa" ++ Py.dq ++ ">
    <head>
        <meta charset=" ++ Py.dq ++ "UTF-8" ++ Py.dq ++ " />
        <title>فاکتورهای استخراج شده</title>
        <style>
            body {
                direction: rtl;
                font-family: Tahoma, Arial, sans-serif;
                margin: 20px;
                font-size: 14px;
            }
            table.products {
                border-collapse: collapse;
                width: 100%;
                margin-top: 10px;
            }
            table.products th, table.products td {
                border: 1px solid #ccc;
                padding: 8px;
                text-align: right;
            }
            table.products th {
                background-color: #eee;
            }
        </style>
    </head>
    <body>
        " ++ all_orders_html ++ "
    </body>
    </html>
    ".

(** The inner loop, [product_rows += ...] for each product. *)
Definition product_rows_html (ps : list ProductLine) : string :=
  fold_left (fun product_rows p => product_rows ++ product_row_html p)
            ps EmptyString.

(** The outer loop carries the counter of [enumerate(orders_data, start=1)]
    next to [all_orders_html]. *)
Definition generate_html_for_orders (orders_data : list OrderRecord) : string :=
  let all_orders_html :=
    snd (fold_left
           (fun st order =>
              let i := fst st in
              let product_rows := product_rows_html order.(products) in
              let products_table := products_table_html product_rows in
              (S i, snd st ++ order_html i products_table order))
           orders_data (1, EmptyString)) in
  document_html all_orders_html.

(** ** The world outside the program

    The route talks to two HTTP servers and to the file system.  Its model
    is a computation over a [World] that records every HTTP call made and
    the files present, and that either returns a value or raises. *)

Inductive json : Type :=
| JNull
| JBool (b : bool)
| JNumber (n : nat)
| JString (s : string)
| JArray (items : list json)
| JObject (members : list (string * json)).

Module Requests.

(** What the program reads of a [requests.Response]: [text] is the body
    decoded as UTF-8, and [json_body] is [None] when [resp.json()]
    raises. *)
Record Response : Type := mkResponse {
  status_code : nat;
  text : string;
  json_body : option json
}.

(** [resp.ok]: the status is not a 4xx or 5xx error. *)
Definition ok (r : Response) : bool :=
  negb (Nat.leb 400 r.(status_code) && Nat.ltb r.(status_code) 600).

End Requests.

(** The fields [send_to_telegram] posts. *)
Record Upload : Type := mkUpload {
  chat_id : string;
  caption : string;
  parse_mode : string;
  document_name : string;
  document_bytes : string;
  document_type : string
}.

Inductive call : Type :=
| Get (url : string)
| Post (url : string) (form : Upload).

(** The answers of the remote servers; [None] stands for a failure of the
    transport (connection refused, timeout, ...), on which [requests]
    raises. *)
Record Network : Type := mkNetwork {
  get_reply : string -> option Requests.Response;
  post_reply : string -> Upload -> option Requests.Response
}.

Record World : Type := mkWorld {
  calls : list call;
  files : list (string * string);
  created : nat
}.

Inductive exn : Type :=
| HTTPException (status_code : nat) (detail : string)
| RequestException
| OSError.

Inductive result (A : Type) : Type :=
| Return (a : A)
| Raise (e : exn).
Arguments Return {A} a.
Arguments Raise {A} e.

Definition M (A : Type) : Type := World -> result A * World.

Definition ret {A : Type} (a : A) : M A := fun w => (Return a, w).

Definition raise {A : Type} (e : exn) : M A := fun w => (Raise e, w).

Definition bind {A B : Type} (m : M A) (k : A -> M B) : M B :=
  fun w =>
    match m w with
    | (Return a, w') => k a w'
    | (Raise e, w') => (Raise e, w')
    end.

(** [try: m  except: pass] *)
Definition try_pass (m : M unit) : M unit :=
  fun w =>
    match m w with
    | (Return _, w') => (Return tt, w')
    | (Raise _, w') => (Return tt, w')
    end.

Notation "x <- m ;; k" := (bind m (fun x => k))
  (at level 61, m at next level, right associativity).
Notation "m ;;; k" := (bind m (fun _ => k))
  (at level 61, right associativity).

Definition is_get (c : call) : bool :=
  match c with
  | Get _ => true
  | Post _ _ => false
  end.

Definition is_post (c : call) : bool := negb (is_get c).

Definition lookup (path : string) (fs : list (string * string)) : option string :=
  option_map snd (List.find (fun f => String.eqb (fst f) path) fs).

Definition exists_file (path : string) (w : World) : bool :=
  match lookup path w.(files) with
  | Some _ => true
  | None => false
  end.

(** The module-level configuration read from the environment. *)
Record Config : Type := mkConfig {
  TELEGRAM_BOT_TOKEN : string;
  TELEGRAM_CHAT_ID : string;
  API_KEY : string
}.

(** The dictionary [send_to_telegram] returns: [ok] and one of [error] and
    [resp]. *)
Record TelegramResult : Type := mkTelegramResult {
  tg_ok : bool;
  tg_error : option string;
  tg_resp : option json
}.

Module ProcessInput.
Record t : Type := mk {
  url : option string;
  html : option string;
  send_to_telegram : bool;
  return_html : bool;
  filename : string
}.
End ProcessInput.

(** The dictionary [process_orders] returns; [html] is present only when
    [return_html] was asked for. *)
Module Summary.
Record t : Type := mk {
  ok : bool;
  orders : nat;
  sent_to_telegram : bool;
  telegram_result : option TelegramResult;
  filename : string;
  html : option string
}.
End Summary.

Section Service.

Variable cfg : Config.
Variable net : Network.

(** [requests.get(url, timeout=60)] *)
Definition requests_get (url : string) : M Requests.Response :=
  fun w =>
    let w' := {| calls := (w.(calls) ++ [Get url])%list;
                 files := w.(files); created := w.(created) |} in
    match net.(get_reply) url with
    | Some r => (Return r, w')
    | None => (Raise RequestException, w')
    end.

(** [requests.post(url, data=data, files=files, timeout=60)] *)
Definition requests_post (url : string) (form : Upload) : M Requests.Response :=
  fun w =>
    let w' := {| calls := (w.(calls) ++ [Post url form])%list;
                 files := w.(files); created := w.(created) |} in
    match net.(post_reply) url form with
    | Some r => (Return r, w')
    | None => (Raise RequestException, w')
    end.

(** [tempfile.NamedTemporaryFile(suffix=suffix, delete=False)]: a new empty
    file; the counter of the world makes its name. *)
Definition NamedTemporaryFile (suffix : string) : M string :=
  fun w =>
    let path := "/tmp/tmp" ++ Py.str_of_nat w.(created) ++ suffix in
    (Return path,
     {| calls := w.(calls);
        files := (path, EmptyString) :: w.(files);
        created := S w.(created) |}).

(** [tmp.write(data)] on the file just created. *)
Definition write (path data : string) : M unit :=
  fun w =>
    (Return tt,
     {| calls := w.(calls);
        files := (path, data)
                 :: filter (fun f => negb (String.eqb (fst f) path)) w.(files);
        created := w.(created) |}).

(** [open(path, "rb").read()] *)
Definition read (path : string) : M string :=
  fun w =>
    match lookup path w.(files) with
    | Some data => (Return data, w)
    | None => (Raise OSError, w)
    end.

(** [os.remove(path)] *)
Definition os_remove (path : string) : M unit :=
  fun w =>
    match lookup path w.(files) with
    | Some _ =>
        (Return tt,
         {| calls := w.(calls);
            files := filter (fun f => negb (String.eqb (fst f) path)) w.(files);
            created := w.(created) |})
    | None => (Raise OSError, w)
    end.

(** ** Telegram *)

Definition default_caption : string := "📄 فاکتورهای سفارش‌ها آماده شد. لطفاً بررسی فرمایید.".

Definition send_to_telegram (file_bytes filename caption : string) : M TelegramResult :=
  if negb (Py.truthy cfg.(TELEGRAM_BOT_TOKEN)) || negb (Py.truthy cfg.(TELEGRAM_CHAT_ID))
  then ret {| tg_ok := false;
              tg_error := Some "TELEGRAM_BOT_TOKEN or TELEGRAM_CHAT_ID not set";
              tg_resp := None |}
  else
    let url := "https://api.telegram.org/bot" ++ cfg.(TELEGRAM_BOT_TOKEN) ++ "/sendDocument" in
    let form := {| chat_id := cfg.(TELEGRAM_CHAT_ID);
                   caption := caption;
                   parse_mode := "HTML";
                   document_name := filename;
                   document_bytes := file_bytes;
                   document_type := "text/html; charset=utf-8" |} in
    resp <- requests_post url form ;;
    let j := match resp.(Requests.json_body) with
             | Some j => j
             | None => JObject [("status_code", JNumber resp.(Requests.status_code));
                                ("text", JString resp.(Requests.text))]
             end in
    ret {| tg_ok := Requests.ok resp; tg_error := None; tg_resp := Some j |}.

(** ** Models and routes *)

(** [BeautifulSoup(html, "html.parser")].  The parser is taken to return
    a tree for every document: markup on which it raises is outside this
    development. *)
Variable html_parser : string -> node.

(** [GET /] *)
Definition health : bool * string := (true, "orders-invoice-api").

Definition same_key (x_api_key : option string) (key : string) : bool :=
  match x_api_key with
  | Some k => String.eqb k key
  | None => false
  end.

(** The guard [API_KEY and x_api_key != API_KEY]. *)
Definition rejected (x_api_key : option string) : bool :=
  Py.truthy cfg.(API_KEY) && negb (same_key x_api_key cfg.(API_KEY)).

(** The input block of [process_orders]: the value of [html] when the
    block is left. *)
Definition resolve_html (payload : ProcessInput.t) : M (option string) :=
  match payload.(ProcessInput.url) with
  | Some (String _ _ as url) =>
      r <- requests_get url ;;
      if negb (Nat.eqb r.(Requests.status_code) 200)
      then raise (HTTPException 400
                    ("Fetch failed: " ++ Py.str_of_nat r.(Requests.status_code)))
      else ret (Some r.(Requests.text))
  | _ => ret payload.(ProcessInput.html)
  end.

(** [POST /process] *)
Definition process_orders (payload : ProcessInput.t) (x_api_key : option string)
  : M Summary.t :=
  if rejected x_api_key
  then raise (HTTPException 401 "Invalid API key")
  else
    html <- resolve_html payload ;;
    match html with
    | Some (String _ _ as html) =>
        let soup := html_parser html in
        let orders_soups := extract_orders soup in
        match orders_soups with
        | [] => raise (HTTPException 404 "No orders found")
        | _ :: _ =>
            let orders_data := map extract_order_data orders_soups in
            let final_html := generate_html_for_orders orders_data in
            tmp_path <- (tmp <- NamedTemporaryFile ".html" ;;
                         write tmp final_html ;;;
                         ret tmp) ;;
            tg_result <- (if payload.(ProcessInput.send_to_telegram)
                          then
                            file_bytes <- read tmp_path ;;
                            r <- send_to_telegram file_bytes
                                   payload.(ProcessInput.filename) default_caption ;;
                            ret (Some r)
                          else ret None) ;;
            try_pass (os_remove tmp_path) ;;;
            ret {| Summary.ok := true;
                   Summary.orders := length orders_data;
                   Summary.sent_to_telegram := payload.(ProcessInput.send_to_telegram);
                   Summary.telegram_result := tg_result;
                   Summary.filename := payload.(ProcessInput.filename);
                   Summary.html := if payload.(ProcessInput.return_html)
                                   then Some final_html else None |}
        end
    | _ => raise (HTTPException 400 "Provide 'url' or 'html'")
    end.

End Service.

(** ** Vocabulary of the specification *)

(** A row the program takes for valid: at least four [td] elements below
    it, at any depth and [th] elements not counted, as [row.find_all] collects
    them, and an [h2] below the second of them. *)
Definition valid_row (row : node) : bool :=
  Nat.leb 4 (length (find_all "td" row)) &&
  match nth_error (find_all "td" row) 1 with
  | Some cell =>
      match find "h2" cell with
      | Some _ => true
      | None => false
      end
  | None => false
  end.

Definition option_list {A : Type} (o : option A) : list A :=
  match o with
  | Some a => [a]
  | None => []
  end.

(** The values the renderer interpolates for one order: the six scalar
    fields, then the four fields of every product line. *)
Definition product_values (p : ProductLine) : list string :=
  [p.(name); p.(attrs); p.(code); p.(quantity)].

Definition field_values (o : OrderRecord) : list string :=
  ([o.(order_number); o.(order_date); o.(full_name);
    o.(phone); o.(zipcode); o.(address)]
   ++ flat_map product_values o.(products))%list.

(** Standard escaping of HTML text, as [html.escape] of Python's library
    does it.  The program never calls it; it is what the specification asks
    of the renderer. *)
Fixpoint html_escape (s : string) : string :=
  match s with
  | EmptyString => EmptyString
  | String c s' =>
      (if Ascii.eqb c "&" then "&amp;"
       else if Ascii.eqb c "<" then "&lt;"
       else if Ascii.eqb c ">" then "&gt;"
       else if Ascii.eqb c (ascii_of_nat 34) then "&quot;"
       else if Ascii.eqb c "'" then "&#x27;"
       else String c EmptyString) ++ html_escape s'
  end.

(** The heading of the section at position [i]. *)
Definition section_heading (i : nat) : string :=
  "<h2>سفارش شماره " ++ Py.str_of_nat i ++ "</h2>".

(** The section the renderer emits for [order] at position [i]. *)
Definition section_html (i : nat) (order : OrderRecord) : string :=
  order_html i (products_table_html (product_rows_html order.(products))) order.

(** [v] is a substring of [s]. *)
Definition occurs_in (v s : string) : Prop :=
  exists pre post, s = pre ++ v ++ post.

(** The request [payload] with another inline document. *)
Definition set_html (h : option string) (payload : ProcessInput.t) : ProcessInput.t :=
  {| ProcessInput.url := payload.(ProcessInput.url);
     ProcessInput.html := h;
     ProcessInput.send_to_telegram := payload.(ProcessInput.send_to_telegram);
     ProcessInput.return_html := payload.(ProcessInput.return_html);
     ProcessInput.filename := payload.(ProcessInput.filename) |}.

(** The fetches and the uploads among the HTTP calls [cs]. *)
Definition gets (cs : list call) : list call := filter is_get cs.

Definition posts (cs : list call) : list call := filter is_post cs.

(** The name of the temporary file a request creates in world [w], and the
    world once the report is written to it. *)
Definition tmp_path_in (w : World) : string :=
  "/tmp/tmp" ++ Py.str_of_nat w.(created) ++ ".html".

Definition with_report (final_html : string) (w : World) : World :=
  {| calls := w.(calls);
     files := (tmp_path_in w, final_html)
              :: filter (fun f => negb (String.eqb (fst f) (tmp_path_in w)))
                        ((tmp_path_in w, EmptyString) :: w.(files));
     created := S w.(created) |}.

(** The report of the document [html] under the parser [html_parser]. *)
Definition report_of (html_parser : string -> node) (html : string) : string :=
  generate_html_for_orders (map extract_order_data (extract_orders (html_parser html))).

(** The summary of a request that got as far as delivery. *)
Definition summary_of (html_parser : string -> node) (payload : ProcessInput.t)
           (html : string) (tg_result : option TelegramResult) : Summary.t :=
  {| Summary.ok := true;
     Summary.orders := length (map extract_order_data (extract_orders (html_parser html)));
     Summary.sent_to_telegram := payload.(ProcessInput.send_to_telegram);
     Summary.telegram_result := tg_result;
     Summary.filename := payload.(ProcessInput.filename);
     Summary.html := if payload.(ProcessInput.return_html)
                     then Some (report_of html_parser html) else None |}.

(** Both delivery credentials are set. *)
Definition configured (cfg : Config) : bool :=
  Py.truthy cfg.(TELEGRAM_BOT_TOKEN) && Py.truthy cfg.(TELEGRAM_CHAT_ID).

(** What [send_to_telegram] answers without credentials. *)
Definition not_configured : TelegramResult :=
  {| tg_ok := false;
     tg_error := Some "TELEGRAM_BOT_TOKEN or TELEGRAM_CHAT_ID not set";
     tg_resp := None |}.

(** What it answers when Telegram replied with [resp]. *)
Definition delivered (resp : Requests.Response) : TelegramResult :=
  {| tg_ok := Requests.ok resp;
     tg_error := None;
     tg_resp := Some (match resp.(Requests.json_body) with
                      | Some j => j
                      | None => JObject [("status_code", JNumber resp.(Requests.status_code));
                                         ("text", JString resp.(Requests.text))]
                      end) |}.

(** The upload it posts, and where. *)
Definition telegram_url (cfg : Config) : string :=
  "https://api.telegram.org/bot" ++ cfg.(TELEGRAM_BOT_TOKEN) ++ "/sendDocument".

Definition telegram_upload (cfg : Config) (file_bytes filename : string) : Upload :=
  {| chat_id := cfg.(TELEGRAM_CHAT_ID);
     caption := default_caption;
     parse_mode := "HTML";
     document_name := filename;
     document_bytes := file_bytes;
     document_type := "text/html; charset=utf-8" |}.

(** ** Sample documents, configurations and networks *)

Module Sample.

Definition label (caption value : string) : node :=
  Tag "td" [] [Tag "span" [] [NavigableString caption]; NavigableString value].

Definition cell (inner : list node) : node := Tag "td" [] inner.

(** A header row, a product row, a decoration row with four cells and no
    heading, and a second product row. *)
Definition products_table : node :=
  Tag "table" ["products"]
    [ Tag "tr" [] [Tag "th" [] [NavigableString "name"]];
      Tag "tr" []
        [ cell [];
          cell [Tag "h2" [] [NavigableString " Lamp "];
                Tag "span" ["product-attrs"] [NavigableString "red"]];
          cell [Tag "span" [] [NavigableString "L-1"]];
          cell [Tag "span" [] [NavigableString "2"]] ];
      Tag "tr" [] [cell []; cell []; cell []; cell []];
      Tag "tr" []
        [ cell [];
          cell [Tag "h2" [] [NavigableString "Desk"]];
          cell [];
          cell [Tag "span" [] [NavigableString "1"]] ] ].

Definition short_row : node := Tag "tr" [] [cell []; cell []; cell []].

Definition plain_row : node := Tag "tr" [] [cell []; cell []; cell []; cell []].

(** An order block with its labels and no products table. *)
Definition bare_order : node :=
  Tag "table" ["wrapper"]
    [ Tag "tr" [] [label caption_order_number "1234"];
      Tag "tr" [] [label caption_phone " 0912 "] ].

Definition full_order : node :=
  Tag "table" ["wrapper"]
    [ Tag "tr" [] [label caption_order_number "77"];
      Tag "tr" [] [Tag "td" [] [products_table]] ].

Definition one_order_page : node := Tag "[document]" [] [bare_order].

Definition two_order_page : node :=
  Tag "[document]" [] [Tag "div" [] [full_order]; bare_order].

Definition empty_page : node :=
  Tag "[document]" [] [Tag "p" [] [NavigableString "nothing here"]].

(** A parser that knows three documents. *)
Definition parser (html : string) : node :=
  if String.eqb html "remote page" then two_order_page
  else if String.eqb html "inline page" then one_order_page
  else empty_page.

Definition open_config : Config :=
  {| TELEGRAM_BOT_TOKEN := EmptyString;
     TELEGRAM_CHAT_ID := EmptyString;
     API_KEY := EmptyString |}.

Definition telegram_config : Config :=
  {| TELEGRAM_BOT_TOKEN := "123:abc";
     TELEGRAM_CHAT_ID := "42";
     API_KEY := EmptyString |}.

(** The shop answers every [GET] with the remote page; Telegram accepts
    every upload. *)
Definition network_up : Network :=
  {| get_reply := fun _ =>
       Some {| Requests.status_code := 200;
               Requests.text := "remote page";
               Requests.json_body := None |};
     post_reply := fun _ _ =>
       Some {| Requests.status_code := 200;
               Requests.text := "{}";
               Requests.json_body := Some (JObject [("ok", JBool true)]) |} |}.

(** No server can be reached. *)
Definition network_down : Network :=
  {| get_reply := fun _ => None; post_reply := fun _ _ => None |}.

Definition fresh_world : World :=
  {| calls := []; files := []; created := 0 |}.

Definition inline_request : ProcessInput.t :=
  {| ProcessInput.url := None;
     ProcessInput.html := Some "inline page";
     ProcessInput.send_to_telegram := true;
     ProcessInput.return_html := false;
     ProcessInput.filename := "all_orders.html" |}.

Definition both_request : ProcessInput.t :=
  {| ProcessInput.url := Some "https://shop.example/orders";
     ProcessInput.html := Some "inline page";
     ProcessInput.send_to_telegram := false;
     ProcessInput.return_html := false;
     ProcessInput.filename := "all_orders.html" |}.

Definition empty_request : ProcessInput.t :=
  {| ProcessInput.url := None;
     ProcessInput.html := Some "no orders in this one";
     ProcessInput.send_to_telegram := true;
     ProcessInput.return_html := false;
     ProcessInput.filename := "all_orders.html" |}.

Definition tagged_order : OrderRecord :=
  {| order_number := "1";
     order_date := EmptyString;
     full_name := "<script>alert(1)</script>";
     phone := EmptyString;
     zipcode := EmptyString;
     address := EmptyString;
     products := [] |}.

End Sample.

(** ** Further vocabulary *)

(** The world once [url] has been fetched, and once the report has been
    posted to Telegram. *)
Definition after_get (url : string) (w : World) : World :=
  {| calls := (calls w ++ [Get url])%list;
     files := files w;
     created := created w |}.

Definition after_post (cfg : Config) (file_bytes filename : string) (w : World) : World :=
  {| calls := (calls w ++ [Post (telegram_url cfg)
                             (telegram_upload cfg file_bytes filename)])%list;
     files := files w;
     created := created w |}.


(** The filter of [extract_orders]. *)
Definition is_wrapper (n : node) : bool :=
  has_name "table" n && has_class "wrapper" n.

(** No file of [fs] is named [path]. *)
Definition absent (path : string) (fs : list (string * string)) : Prop :=
  forall f, In f fs -> String.eqb (fst f) path = false.

(** The children of a tag, and the cells a row has of its own: its [td]
    and [th] children. *)
Definition children (n : node) : list node :=
  match n with
  | Tag _ _ cs => cs
  | NavigableString _ => []
  end.

Definition own_cells (row : node) : list node :=
  filter (fun c => has_name "td" c || has_name "th" c) (children row).



Module Case.

(** A row with one cell of its own; the cell holds a table whose only row
    has three cells. *)
Definition inner_row : node :=
  Tag "tr" []
    [ Tag "td" [] [Tag "h2" [] [NavigableString "Lamp"]];
      Tag "td" [] [Tag "span" [] [NavigableString "L-1"]];
      Tag "td" [] [Tag "span" [] [NavigableString "2"]] ].

Definition nested_row : node :=
  Tag "tr" [] [Tag "td" [] [Tag "table" [] [inner_row]]].

Definition nested_table : node := Tag "table" ["products"] [nested_row].


Definition keyed_config : Config :=
  {| TELEGRAM_BOT_TOKEN := EmptyString;
     TELEGRAM_CHAT_ID := EmptyString;
     API_KEY := "s3cret" |}.

(** The shop answers 503. *)
Definition network_busy : Network :=
  {| get_reply := fun _ =>
       Some {| Requests.status_code := 503;
               Requests.text := "busy";
               Requests.json_body := None |};
     post_reply := fun _ _ => None |}.

(** The shop answers 200 with an empty body; Telegram answers 502 with a
    body that is not JSON. *)
Definition network_blank : Network :=
  {| get_reply := fun _ =>
       Some {| Requests.status_code := 200;
               Requests.text := EmptyString;
               Requests.json_body := None |};
     post_reply := fun _ _ =>
       Some {| Requests.status_code := 502;
               Requests.text := "Bad Gateway";
               Requests.json_body := None |} |}.

Definition url_request : ProcessInput.t :=
  {| ProcessInput.url := Some "https://shop.example/orders";
     ProcessInput.html := None;
     ProcessInput.send_to_telegram := true;
     ProcessInput.return_html := true;
     ProcessInput.filename := "report.html" |}.

Definition nothing_request : ProcessInput.t :=
  {| ProcessInput.url := Some EmptyString;
     ProcessInput.html := None;
     ProcessInput.send_to_telegram := true;
     ProcessInput.return_html := false;
     ProcessInput.filename := "report.html" |}.

Definition plain_order (n : string) : OrderRecord :=
  {| order_number := n;
     order_date := EmptyString;
     full_name := EmptyString;
     phone := EmptyString;
     zipcode := EmptyString;
     address := EmptyString;
     products := [] |}.

End Case.

(** * Properties *)

(** ** Strings and lists *)

Lemma append_nil_r (s : string) : s ++ EmptyString = s.
Proof.
  induction s as [|c s IH]; simpl; [reflexivity | now rewrite IH].
Qed.

Lemma append_assoc (a b c : string) : (a ++ b) ++ c = a ++ b ++ c.
Proof.
  induction a as [|x a IH]; simpl; [reflexivity | now rewrite IH].
Qed.

Lemma join_app (l1 l2 : list string) :
  Py.join (l1 ++ l2) = Py.join l1 ++ Py.join l2.
Proof.
  induction l1 as [|s l1 IH]; simpl; [reflexivity|].
  now rewrite IH, append_assoc.
Qed.

Lemma prefix_append (a b : string) : prefix a (a ++ b) = true.
Proof.
  induction a as [|c a IH].
  - now destruct b.
  - simpl. destruct (ascii_dec c c) as [_|ne]; [exact IH | now elim ne].
Qed.

Lemma contains_prefix (needle hay : string) :
  prefix needle hay = true -> Py.contains needle hay = true.
Proof.
  intro H. destruct hay; cbn [Py.contains]; now rewrite H.
Qed.

Lemma contains_inside (pre needle post : string) :
  Py.contains needle (pre ++ needle ++ post) = true.
Proof.
  induction pre as [|c pre IH].
  - change (EmptyString ++ needle ++ post) with (needle ++ post).
    apply contains_prefix, prefix_append.
  - cbn [String.append Py.contains]. rewrite IH. apply orb_true_r.
Qed.

(** ** Product rows *)

Lemma product_of_row_valid (row : node) :
  product_of_row row = None <-> valid_row row = false.
Proof.
  unfold product_of_row, valid_row.
  destruct (find_all "td" row) as [|c0 [|c1 [|c2 [|c3 rest]]]]; simpl;
    try destruct (find "h2" c1); split; intro H;
    solve [reflexivity | discriminate H].
Qed.

Lemma products_loop (rows : list node) (acc : list ProductLine) :
  fold_left (fun products row =>
               match product_of_row row with
               | Some p => (products ++ [p])%list
               | None => products
               end) rows acc
  = (acc ++ flat_map (fun row => option_list (product_of_row row)) rows)%list.
Proof.
  revert acc. induction rows as [|row rows IH]; intro acc; simpl.
  - now rewrite app_nil_r.
  - rewrite IH. destruct (product_of_row row); simpl.
    + now rewrite <- app_assoc.
    + reflexivity.
Qed.

Lemma kept_rows_count (rows : list node) :
  length (flat_map (fun row => option_list (product_of_row row)) rows)
  = length (filter valid_row rows).
Proof.
  induction rows as [|row rows IH]; simpl; [reflexivity|].
  rewrite length_app, IH.
  destruct (product_of_row row) eqn:E.
  - destruct (valid_row row) eqn:V; [reflexivity|].
    apply product_of_row_valid in V. congruence.
  - apply product_of_row_valid in E. now rewrite E.
Qed.

(** C6, as the program has it.  The rows of a products table are the
    [tr] elements below it and the cells of a row the [td] elements below
    the row, both at any depth.  The loop passes over every row with fewer
    than four such cells and every row with no [h2] below the second of
    them; the lines it collects are those of the remaining rows, in document
    order, so a table with [N] such valid and [M] invalid rows yields [N]
    lines. *)
Theorem products_keep_valid_rows (products_table : node) :
  (forall row, length (find_all "td" row) < 4 -> product_of_row row = None) /\
  (forall row cell,
      nth_error (find_all "td" row) 1 = Some cell ->
      find "h2" cell = None ->
      product_of_row row = None) /\
  products_of_table products_table
  = flat_map (fun row => option_list (product_of_row row))
             (find_all "tr" products_table) /\
  (forall N M,
      length (filter valid_row (find_all "tr" products_table)) = N ->
      length (filter (fun row => negb (valid_row row))
                     (find_all "tr" products_table)) = M ->
      length (find_all "tr" products_table) = N + M /\
      length (products_of_table products_table) = N).
Proof.
  split; [|split; [|split]].
  - intros row Hlen. unfold product_of_row.
    destruct (find_all "td" row) as [|c0 [|c1 [|c2 [|c3 rest]]]];
      try reflexivity.
    simpl in Hlen. lia.
  - intros row cell Hcell Hh2. unfold product_of_row.
    destruct (find_all "td" row) as [|c0 [|c1 [|c2 [|c3 rest]]]];
      try reflexivity.
    simpl in Hcell. injection Hcell as ->. now rewrite Hh2.
  - unfold products_of_table. now rewrite products_loop.
  - intros N M HN HM. subst N M. split.
    + now rewrite (filter_length valid_row).
    + unfold products_of_table.
      rewrite products_loop. apply kept_rows_count.
Qed.

Lemma products_keep_valid_rows_witness :
  product_of_row Sample.short_row = None /\
  product_of_row Sample.plain_row = None /\
  length (find_all "tr" Sample.products_table) = 2 + 2 /\
  length (products_of_table Sample.products_table) = 2.
Proof.
  destruct (products_keep_valid_rows Sample.products_table)
    as (Hshort & Hplain & _ & Hcount).
  split; [apply Hshort; simpl; lia|].
  split; [apply (Hplain _ (Sample.cell [])); reflexivity|].
  apply (Hcount 2 2); reflexivity.
Defined.

(** C6 fails as stated: the only row of this table has one cell of its
    own, and the row inside that cell has three; both have fewer than four
    cells, yet the outer row is not passed over and the table yields a
    line, made from the cells of the inner row. *)
Lemma nested_cells_make_a_row :
  find_all "tr" Case.nested_table = [Case.nested_row; Case.inner_row] /\
  length (own_cells Case.nested_row) = 1 /\
  length (own_cells Case.inner_row) = 3 /\
  product_of_row Case.nested_row
  = Some {| name := "Lamp"; attrs := EmptyString; code := "L-1";
            quantity := "2" |} /\
  products_of_table Case.nested_table
  = [{| name := "Lamp"; attrs := EmptyString; code := "L-1";
        quantity := "2" |}].
Proof.
  repeat split; vm_compute; reflexivity.
Qed.

(** ** Order fields *)

(** Without a label whose text is the caption, the field is empty. *)
Lemma get_text_by_caption_no_label (order_soup : node) (caption : string) :
  find_string "span" caption order_soup = None ->
  get_text_by_caption order_soup caption = EmptyString.
Proof.
  intro H. unfold get_text_by_caption. now rewrite H.
Qed.

(** With a label, the field is the stripped text pieces of the label's
    parent, joined, with the occurrences of the caption in that string
    removed. *)
Lemma get_text_by_caption_label (order_soup parent span : node) (caption : string) :
  find_string "span" caption order_soup = Some (parent, span) ->
  get_text_by_caption order_soup caption
  = Py.remove caption (get_text_strip parent).
Proof.
  intro H. unfold get_text_by_caption. now rewrite H.
Qed.

(** C5.  On an order block whose order-number label is followed by the
    number, the field keeps the label: every text piece is stripped before
    the pieces are joined, so the caption, which ends in a space, no longer
    occurs in the text it is to be removed from.  A caption without a
    trailing space is removed. *)
Example caption_left_in_field :
  find_string "span" caption_order_number Sample.bare_order
  = Some (Sample.label caption_order_number "1234",
          Tag "span" [] [NavigableString caption_order_number]) /\
  get_text_by_caption Sample.bare_order caption_order_number
  = "شماره سفارش:1234" /\
  get_text_by_caption Sample.bare_order caption_phone = "0912".
Proof.
  repeat split; vm_compute; reflexivity.
Qed.

(** C10.  An order block without a table of class [products] is extracted
    all the same: its record has no product lines, and its six scalar
    fields are what the captions find in the block. *)
Theorem no_products_table_no_lines (order_soup : node) :
  find_class "table" "products" order_soup = None ->
  (extract_order_data order_soup).(products) = [] /\
  extract_order_data order_soup
  = {| order_number := get_text_by_caption order_soup caption_order_number;
       order_date := get_text_by_caption order_soup caption_order_date;
       full_name := get_text_by_caption order_soup caption_full_name;
       phone := get_text_by_caption order_soup caption_phone;
       zipcode := get_text_by_caption order_soup caption_zipcode;
       address := get_text_by_caption order_soup caption_address;
       products := [] |}.
Proof.
  intro H. unfold extract_order_data. rewrite H. split; reflexivity.
Qed.

Lemma no_products_table_no_lines_witness :
  (extract_order_data Sample.bare_order).(products) = [] /\
  extract_order_data Sample.bare_order
  = {| order_number := get_text_by_caption Sample.bare_order caption_order_number;
       order_date := get_text_by_caption Sample.bare_order caption_order_date;
       full_name := get_text_by_caption Sample.bare_order caption_full_name;
       phone := get_text_by_caption Sample.bare_order caption_phone;
       zipcode := get_text_by_caption Sample.bare_order caption_zipcode;
       address := get_text_by_caption Sample.bare_order caption_address;
       products := [] |}.
Proof.
  apply (no_products_table_no_lines Sample.bare_order). reflexivity.
Defined.

(** ** The report *)

Lemma product_rows_loop (ps : list ProductLine) (acc : string) :
  fold_left (fun product_rows p => product_rows ++ product_row_html p) ps acc
  = acc ++ Py.join (map product_row_html ps).
Proof.
  revert acc. induction ps as [|p ps IH]; intro acc; simpl.
  - now rewrite append_nil_r.
  - now rewrite IH, append_assoc.
Qed.

Lemma orders_loop (orders : list OrderRecord) (i : nat) (acc : string) :
  fold_left
    (fun st order =>
       let i := fst st in
       let product_rows := product_rows_html order.(products) in
       let products_table := products_table_html product_rows in
       (S i, snd st ++ order_html i products_table order))
    orders (i, acc)
  = (i + length orders,
     acc ++ Py.join (map (fun ko => section_html (fst ko) (snd ko))
                       (combine (seq i (length orders)) orders))).
Proof.
  revert i acc. induction orders as [|o orders IH]; intros i acc.
  - cbn [fold_left length seq combine map Py.join fold_right].
    now rewrite append_nil_r, Nat.add_0_r.
  - cbn [fold_left length seq combine map Py.join fold_right fst snd].
    rewrite IH. fold (section_html i o).
    now rewrite append_assoc, Nat.add_succ_r.
Qed.


(** ** Field values in the report *)

Lemma occurs_here (v post : string) : occurs_in v (v ++ post).
Proof.
  now exists EmptyString, post.
Qed.

Lemma occurs_skip (v a s : string) : occurs_in v s -> occurs_in v (a ++ s).
Proof.
  intros (pre & post & ->). exists (a ++ pre), post. now rewrite append_assoc.
Qed.

Lemma occurs_left (v s b : string) : occurs_in v s -> occurs_in v (s ++ b).
Proof.
  intros (pre & post & ->). exists pre, (post ++ b).
  now rewrite !append_assoc.
Qed.

Lemma occurs_contains (v s : string) : occurs_in v s -> Py.contains v s = true.
Proof.
  intros (pre & post & ->). apply contains_inside.
Qed.

Lemma occurs_join (v s : string) (l : list string) :
  In s l -> occurs_in v s -> occurs_in v (Py.join l).
Proof.
  intros Hin Hv. induction l as [|x l IH]; [easy|].
  destruct Hin as [->|Hin]; cbn [Py.join fold_right].
  - now apply occurs_left.
  - apply occurs_skip. now apply IH.
Qed.

Ltac occurs_in_template :=
  repeat first [apply occurs_here | apply occurs_skip].

Lemma product_value_in_row (p : ProductLine) (v : string) :
  In v (product_values p) -> occurs_in v (product_row_html p).
Proof.
  intro H. unfold product_values in H. unfold product_row_html.
  destruct H as [<-|[<-|[<-|[<-|[]]]]]; occurs_in_template.
Qed.

Lemma field_value_in_section (i : nat) (order : OrderRecord) (v : string) :
  In v (field_values order) -> occurs_in v (section_html i order).
Proof.
  intro H. unfold field_values in H. apply in_app_or in H.
  unfold section_html, order_html. destruct H as [H|H].
  - destruct H as [<-|[<-|[<-|[<-|[<-|[<-|[]]]]]]]; occurs_in_template.
  - apply in_flat_map in H. destruct H as (p & Hp & Hv).
    do 7 apply occurs_skip. apply occurs_left.
    unfold products_table_html. do 5 apply occurs_skip. apply occurs_left.
    unfold product_rows_html. rewrite product_rows_loop.
    apply (occurs_join v (product_row_html p)).
    + now apply in_map.
    + now apply product_value_in_row.
Qed.

Lemma numbered_member {A B : Type} (f : nat -> A -> B) (l : list A) (a : A) (i : nat) :
  In a l ->
  exists k, In (f k a) (map (fun ka => f (fst ka) (snd ka))
                          (combine (seq i (length l)) l)).
Proof.
  revert i. induction l as [|x l IH]; intros i Hin; [easy|].
  cbn [length seq combine map fst snd]. destruct Hin as [->|Hin].
  - exists i. now left.
  - destruct (IH (S i) Hin) as (k & Hk). exists k. now right.
Qed.

(** C2, as the program has it.  Every value the renderer interpolates, a
    scalar field or a product field of any record, stands in the report
    exactly as it is in the record: the renderer copies it without
    escaping. *)
Theorem field_values_rendered_verbatim
  (orders : list OrderRecord) (order : OrderRecord) (v : string) :
  In order orders ->
  In v (field_values order) ->
  Py.contains v (generate_html_for_orders orders) = true.
Proof.
  intros Horder Hv. apply occurs_contains.
  unfold generate_html_for_orders. rewrite orders_loop. cbn [snd].
  unfold document_html. do 9 apply occurs_skip. apply occurs_left.
  change (EmptyString ++ ?s) with s.
  destruct (numbered_member section_html orders order 1 Horder) as (k & Hk).
  apply (occurs_join v (section_html k order)); [exact Hk|].
  now apply field_value_in_section.
Qed.

Lemma field_values_rendered_verbatim_witness :
  Py.contains "<script>alert(1)</script>"
              (generate_html_for_orders [Sample.tagged_order]) = true.
Proof.
  apply (field_values_rendered_verbatim
           [Sample.tagged_order] Sample.tagged_order).
  - left. reflexivity.
  - right. right. left. reflexivity.
Defined.

(** C2 fails as stated: a customer name that is a [script] element is in
    the report as that element, and its escaped form is not in the
    report. *)
Lemma rendered_markup_is_live :
  In "<script>alert(1)</script>" (field_values Sample.tagged_order) /\
  html_escape "<script>alert(1)</script>"
  = "&lt;script&gt;alert(1)&lt;/script&gt;" /\
  Py.contains (html_escape "<script>alert(1)</script>")
              (generate_html_for_orders [Sample.tagged_order]) = false /\
  Py.contains "<script>alert(1)</script>"
              (generate_html_for_orders [Sample.tagged_order]) = true.
Proof.
  split; [right; right; left; reflexivity|].
  repeat split; vm_compute; reflexivity.
Qed.

(** ** The text of the report *)






(** ** The route *)

Section Route.

Variable cfg : Config.
Variable net : Network.
Variable html_parser : string -> node.

Lemma lookup_head (path data : string) (fs : list (string * string)) :
  lookup path ((path, data) :: fs) = Some data.
Proof.
  unfold lookup. cbn [List.find fst]. now rewrite String.eqb_refl.
Qed.

(** The route from the extraction on, for a document with an order. *)
Lemma process_after_input
  (payload : ProcessInput.t) (key : option string) (w w1 : World) (html : string) :
  rejected cfg key = false ->
  resolve_html net payload w = (Return (Some html), w1) ->
  Py.truthy html = true ->
  extract_orders (html_parser html) <> [] ->
  process_orders cfg net html_parser payload key w
  = if payload.(ProcessInput.send_to_telegram)
    then
      match send_to_telegram cfg net (report_of html_parser html)
              payload.(ProcessInput.filename) default_caption
              (with_report (report_of html_parser html) w1) with
      | (Return r, w') =>
          (Return (summary_of html_parser payload html (Some r)),
           snd (try_pass (os_remove (tmp_path_in w1)) w'))
      | (Raise e, w') => (Raise e, w')
      end
    else
      (Return (summary_of html_parser payload html None),
       snd (try_pass (os_remove (tmp_path_in w1))
              (with_report (report_of html_parser html) w1))).
Proof.
  intros Hkey Hin Hhtml Hblocks.
  unfold process_orders. rewrite Hkey.
  unfold bind at 1. rewrite Hin.
  destruct html as [|c html]; [discriminate Hhtml|].
  set (doc := String c html) in *.
  unfold summary_of, report_of.
  destruct (extract_orders (html_parser doc)) as [|b bs] eqn:E; [now elim Hblocks|].
  set (final := generate_html_for_orders (map extract_order_data (b :: bs))).
  unfold bind, NamedTemporaryFile, write, ret.
  cbn [fst snd calls files created]. fold (tmp_path_in w1).
  change {| calls := calls w1;
            files := (tmp_path_in w1, final)
                     :: filter (fun f => negb (String.eqb (fst f) (tmp_path_in w1)))
                          ((tmp_path_in w1, EmptyString) :: files w1);
            created := S (created w1) |} with (with_report final w1).
  destruct (ProcessInput.send_to_telegram payload).
  - unfold read. unfold with_report at 1. cbn [files]. rewrite lookup_head.
    destruct (send_to_telegram cfg net final (ProcessInput.filename payload)
                default_caption (with_report final w1)) as [[r|e] w'].
    + unfold try_pass. now destruct (os_remove (tmp_path_in w1) w') as [[u|e] w''].
    + reflexivity.
  - unfold try_pass.
    now destruct (os_remove (tmp_path_in w1) (with_report final w1)) as [[u|e] w''].
Qed.

Lemma try_remove_calls (path : string) (w : World) :
  calls (snd (try_pass (os_remove path) w)) = calls w.
Proof.
  unfold try_pass, os_remove. now destruct (lookup path (files w)).
Qed.

Lemma try_remove_gone (path : string) (w : World) :
  exists_file path (snd (try_pass (os_remove path) w)) = false.
Proof.
  unfold try_pass, os_remove, exists_file.
  destruct (lookup path (files w)) eqn:E; cbn [snd files]; [|now rewrite E].
  unfold lookup.
  destruct (List.find (fun f => String.eqb (fst f) path)
              (filter (fun f => negb (String.eqb (fst f) path)) (files w)))
    as [f|] eqn:F; [|reflexivity].
  apply find_some in F. destruct F as (Hin & Heq).
  apply filter_In in Hin. destruct Hin as (_ & Hne).
  rewrite Heq in Hne. discriminate Hne.
Qed.

Lemma send_not_configured (file_bytes filename caption : string) (w : World) :
  configured cfg = false ->
  send_to_telegram cfg net file_bytes filename caption w
  = (Return not_configured, w).
Proof.
  unfold configured, send_to_telegram. intro H.
  destruct (Py.truthy (TELEGRAM_BOT_TOKEN cfg)), (Py.truthy (TELEGRAM_CHAT_ID cfg));
    try discriminate H; reflexivity.
Qed.

Lemma send_configured (file_bytes filename : string) (w : World) :
  configured cfg = true ->
  send_to_telegram cfg net file_bytes filename default_caption w
  = let w' := {| calls := (calls w
                           ++ [Post (telegram_url cfg)
                                 (telegram_upload cfg file_bytes filename)])%list;
                 files := files w;
                 created := created w |} in
    match post_reply net (telegram_url cfg)
            (telegram_upload cfg file_bytes filename) with
    | Some resp => (Return (delivered resp), w')
    | None => (Raise RequestException, w')
    end.
Proof.
  unfold configured, send_to_telegram. intro H.
  apply andb_true_iff in H. destruct H as (-> & ->). cbn [negb orb].
  unfold bind, requests_post.
  fold (telegram_url cfg). fold (telegram_upload cfg file_bytes filename).
  now destruct (post_reply net (telegram_url cfg)
                  (telegram_upload cfg file_bytes filename)).
Qed.

(** Delivery adds no fetch and leaves the files alone. *)
Lemma send_world (file_bytes filename : string) (w : World) :
  exists extra,
    calls (snd (send_to_telegram cfg net file_bytes filename default_caption w))
    = (calls w ++ extra)%list /\
    gets extra = [] /\
    files (snd (send_to_telegram cfg net file_bytes filename default_caption w))
    = files w.
Proof.
  destruct (configured cfg) eqn:C.
  - rewrite (send_configured _ _ _ C). cbn zeta.
    exists [Post (telegram_url cfg) (telegram_upload cfg file_bytes filename)].
    now destruct (post_reply net (telegram_url cfg)
                    (telegram_upload cfg file_bytes filename)).
  - rewrite (send_not_configured _ _ _ _ C). exists [].
    cbn [snd]. now rewrite app_nil_r.
Qed.

(** After the input block the route makes no fetch. *)
Lemma process_calls (payload : ProcessInput.t) (key : option string) (w : World) :
  rejected cfg key = false ->
  exists extra,
    calls (snd (process_orders cfg net html_parser payload key w))
    = (calls (snd (resolve_html net payload w)) ++ extra)%list /\
    gets extra = [].
Proof.
  intro Hkey.
  destruct (resolve_html net payload w) as [[[[|c html]|]|e] w1] eqn:Hin;
    try (exists []; unfold process_orders; rewrite Hkey; unfold bind;
         rewrite Hin; cbn [snd]; now rewrite app_nil_r).
  destruct (extract_orders (html_parser (String c html))) as [|b bs] eqn:E.
  - exists []. unfold process_orders. rewrite Hkey. unfold bind.
    rewrite Hin, E. cbn [snd]. now rewrite app_nil_r.
  - rewrite (process_after_input payload key w w1 (String c html) Hkey Hin);
      [|reflexivity|now rewrite E].
    cbn [snd]. destruct (ProcessInput.send_to_telegram payload).
    + destruct (send_world (report_of html_parser (String c html))
                  (ProcessInput.filename payload)
                  (with_report (report_of html_parser (String c html)) w1))
        as (extra & Hcalls & Hgets & _).
      exists extra. split; [|exact Hgets].
      destruct (send_to_telegram cfg net _ _ _ _) as [[r|e] w'];
        cbn [snd] in *; [rewrite try_remove_calls|]; exact Hcalls.
    + exists []. cbn [snd]. rewrite try_remove_calls. cbn [with_report calls].
      now rewrite app_nil_r.
Qed.

(** A request that returns its summary has removed its temporary file. *)
Lemma file_removed_on_return
  (payload : ProcessInput.t) (key : option string) (w w1 w' : World)
  (html : string) (s : Summary.t) :
  rejected cfg key = false ->
  resolve_html net payload w = (Return (Some html), w1) ->
  Py.truthy html = true ->
  extract_orders (html_parser html) <> [] ->
  process_orders cfg net html_parser payload key w = (Return s, w') ->
  exists_file (tmp_path_in w1) w' = false.
Proof.
  intros Hkey Hin Hhtml Hblocks.
  rewrite (process_after_input payload key w w1 html Hkey Hin Hhtml Hblocks).
  destruct (ProcessInput.send_to_telegram payload).
  - destruct (send_to_telegram cfg net _ _ _ _) as [[r|e] w2];
      [|discriminate].
    intro H. injection H as _ <-. apply try_remove_gone.
  - intro H. injection H as _ <-. apply try_remove_gone.
Qed.


(** C8.  Without a bot token or without a chat id, [send_to_telegram]
    answers [ok = False] with an error text and leaves the world as it was
    (no HTTP call); a request that asks for delivery and reaches it still
    gets the summary with [ok = True], the adapter's answer in it, and no
    HTTP call after the input block. *)
Theorem unconfigured_delivery_is_soft
  (payload : ProcessInput.t) (key : option string) (w w1 : World) (html : string) :
  Py.truthy cfg.(TELEGRAM_BOT_TOKEN) = false \/
  Py.truthy cfg.(TELEGRAM_CHAT_ID) = false ->
  (forall file_bytes filename caption w0,
      send_to_telegram cfg net file_bytes filename caption w0
      = (Return {| tg_ok := false;
                   tg_error := Some "TELEGRAM_BOT_TOKEN or TELEGRAM_CHAT_ID not set";
                   tg_resp := None |}, w0)) /\
  (rejected cfg key = false ->
   resolve_html net payload w = (Return (Some html), w1) ->
   Py.truthy html = true ->
   extract_orders (html_parser html) <> [] ->
   ProcessInput.send_to_telegram payload = true ->
   exists s r w',
     process_orders cfg net html_parser payload key w = (Return s, w') /\
     Summary.ok s = true /\
     Summary.sent_to_telegram s = true /\
     Summary.telegram_result s = Some r /\
     tg_ok r = false /\
     tg_error r = Some "TELEGRAM_BOT_TOKEN or TELEGRAM_CHAT_ID not set" /\
     calls w' = calls w1).
Proof.
  intro Hcfg.
  assert (configured cfg = false) as C.
  { unfold configured. destruct Hcfg as [-> | ->];
      [reflexivity | apply andb_false_r]. }
  split.
  - intros. now apply send_not_configured.
  - intros Hkey Hin Hhtml Hblocks Hsend.
    rewrite (process_after_input payload key w w1 html Hkey Hin Hhtml Hblocks).
    rewrite Hsend, (send_not_configured _ _ _ _ C).
    eexists. exists not_configured. eexists.
    split; [reflexivity|].
    cbn [summary_of Summary.ok Summary.sent_to_telegram Summary.telegram_result].
    rewrite try_remove_calls.
    repeat split; assumption.
Qed.

(** C3, as the program has it.  A request that asks for delivery and
    reaches it returns the summary with [ok = True] and the adapter's
    answer in it whenever the adapter answers: without credentials, and
    with credentials when Telegram replies, whatever the status and the
    body of the reply. *)
Theorem delivery_answer_is_data
  (payload : ProcessInput.t) (key : option string) (w w1 : World) (html : string) :
  rejected cfg key = false ->
  resolve_html net payload w = (Return (Some html), w1) ->
  Py.truthy html = true ->
  extract_orders (html_parser html) <> [] ->
  ProcessInput.send_to_telegram payload = true ->
  (configured cfg = false ->
   exists w',
     process_orders cfg net html_parser payload key w
     = (Return (summary_of html_parser payload html (Some not_configured)), w')) /\
  (configured cfg = true ->
   forall resp,
     post_reply net (telegram_url cfg)
       (telegram_upload cfg (report_of html_parser html)
          (ProcessInput.filename payload)) = Some resp ->
     exists w',
       process_orders cfg net html_parser payload key w
       = (Return (summary_of html_parser payload html (Some (delivered resp))), w') /\
       Summary.ok (summary_of html_parser payload html (Some (delivered resp))) = true /\
       tg_ok (delivered resp) = Requests.ok resp).
Proof.
  intros Hkey Hin Hhtml Hblocks Hsend.
  rewrite (process_after_input payload key w w1 html Hkey Hin Hhtml Hblocks).
  rewrite Hsend. split.
  - intro C. rewrite (send_not_configured _ _ _ _ C). eexists. reflexivity.
  - intros C resp Hresp. rewrite (send_configured _ _ _ C). cbn zeta.
    rewrite Hresp. eexists. repeat split.
Qed.

(** C1, as the program has it.  A non-empty [url] is always fetched, and
    the inline [html] sent with it plays no part: the answer to status 200
    becomes the document, and the outcome of the request is the same for
    any inline document.  The inline document is the source, and nothing is
    fetched, exactly when [url] is absent or empty. *)
Theorem url_is_fetched_when_given
  (payload : ProcessInput.t) (key : option string) (w : World) :
  rejected cfg key = false ->
  (forall url,
      ProcessInput.url payload = Some url -> Py.truthy url = true ->
      (exists rest,
          calls (snd (process_orders cfg net html_parser payload key w))
          = (calls w ++ Get url :: rest)%list) /\
      (forall h,
          process_orders cfg net html_parser (set_html h payload) key w
          = process_orders cfg net html_parser payload key w) /\
      (forall r,
          get_reply net url = Some r -> Requests.status_code r = 200 ->
          fst (resolve_html net payload w) = Return (Some (Requests.text r)))) /\
  (Py.truthy_opt (ProcessInput.url payload) = false ->
   resolve_html net payload w = (Return (ProcessInput.html payload), w) /\
   gets (calls (snd (process_orders cfg net html_parser payload key w)))
   = gets (calls w)).
Proof.
  intro Hkey. split.
  - intros url Hurl Htruthy.
    destruct url as [|c url]; [discriminate Htruthy|].
    split; [|split].
    + destruct (process_calls payload key w Hkey) as (extra & Hcalls & _).
      exists extra. rewrite Hcalls.
      unfold resolve_html. rewrite Hurl. unfold bind, requests_get.
      destruct (get_reply net (String c url)) as [r|]; cbn [snd calls].
      * destruct (negb (Nat.eqb (Requests.status_code r) 200));
          cbn [raise ret snd calls]; now rewrite <- app_assoc.
      * now rewrite <- app_assoc.
    + intro h. destruct payload as [u h0 s rh f]. cbn in Hurl. subst u.
      reflexivity.
    + intros r Hr Hstatus. unfold resolve_html. rewrite Hurl.
      unfold bind, requests_get. rewrite Hr, Hstatus. reflexivity.
  - intro Hurl.
    assert (resolve_html net payload w = (Return (ProcessInput.html payload), w)) as Hin.
    { unfold resolve_html.
      destruct (ProcessInput.url payload) as [[|c url]|];
        [reflexivity | discriminate Hurl | reflexivity]. }
    split; [exact Hin|].
    destruct (process_calls payload key w Hkey) as (extra & Hcalls & Hgets).
    rewrite Hcalls, Hin. cbn [snd]. unfold gets in *.
    now rewrite filter_app, Hgets, app_nil_r.
Qed.

End Route.

(** ** The route on the sample requests *)


Lemma unconfigured_delivery_is_soft_witness :
  exists s r w',
    process_orders Sample.open_config Sample.network_down Sample.parser
      Sample.inline_request None Sample.fresh_world = (Return s, w') /\
    Summary.ok s = true /\
    Summary.sent_to_telegram s = true /\
    Summary.telegram_result s = Some r /\
    tg_ok r = false /\
    tg_error r = Some "TELEGRAM_BOT_TOKEN or TELEGRAM_CHAT_ID not set" /\
    calls w' = [].
Proof.
  destruct (unconfigured_delivery_is_soft
              Sample.open_config Sample.network_down Sample.parser
              Sample.inline_request None Sample.fresh_world Sample.fresh_world
              "inline page" (or_introl eq_refl)) as [_ H].
  apply H; [reflexivity | reflexivity | reflexivity | discriminate | reflexivity].
Defined.

Lemma delivery_answer_is_data_witness :
  exists w',
    process_orders Sample.telegram_config Sample.network_up Sample.parser
      Sample.inline_request None Sample.fresh_world
    = (Return {| Summary.ok := true;
                 Summary.orders := 1;
                 Summary.sent_to_telegram := true;
                 Summary.telegram_result :=
                   Some {| tg_ok := true;
                           tg_error := None;
                           tg_resp := Some (JObject [("ok", JBool true)]) |};
                 Summary.filename := "all_orders.html";
                 Summary.html := None |}, w').
Proof.
  assert (extract_orders (Sample.parser "inline page") <> []) as Hblocks
    by discriminate.
  destruct (delivery_answer_is_data
              Sample.telegram_config Sample.network_up Sample.parser
              Sample.inline_request None Sample.fresh_world Sample.fresh_world
              "inline page" eq_refl eq_refl eq_refl Hblocks eq_refl) as [_ H].
  destruct (H eq_refl _ eq_refl) as (w' & Hrun & _).
  exists w'. exact Hrun.
Defined.

(** C3 fails as stated: with credentials set and Telegram out of reach,
    the request asks for delivery, attempts the upload, and ends with the
    exception of the transport instead of a summary. *)
Lemma transport_failure_fails_request :
  ProcessInput.send_to_telegram Sample.inline_request = true /\
  length (extract_orders (Sample.parser "inline page")) = 1 /\
  fst (process_orders Sample.telegram_config Sample.network_down Sample.parser
         Sample.inline_request None Sample.fresh_world)
  = Raise RequestException /\
  length (posts (calls (snd (process_orders
                               Sample.telegram_config Sample.network_down
                               Sample.parser Sample.inline_request None
                               Sample.fresh_world)))) = 1.
Proof.
  repeat split; vm_compute; reflexivity.
Qed.

Lemma url_is_fetched_when_given_witness :
  (exists rest,
      calls (snd (process_orders Sample.open_config Sample.network_up
                    Sample.parser Sample.both_request None Sample.fresh_world))
      = Get "https://shop.example/orders" :: rest) /\
  gets (calls (snd (process_orders Sample.open_config Sample.network_up
                      Sample.parser Sample.inline_request None
                      Sample.fresh_world))) = [].
Proof.
  split.
  - destruct (url_is_fetched_when_given
                Sample.open_config Sample.network_up Sample.parser
                Sample.both_request None Sample.fresh_world eq_refl) as [H _].
    destruct (H "https://shop.example/orders" eq_refl eq_refl) as [Hget _].
    exact Hget.
  - destruct (url_is_fetched_when_given
                Sample.open_config Sample.network_up Sample.parser
                Sample.inline_request None Sample.fresh_world eq_refl) as [_ H].
    destruct (H eq_refl) as [_ Hgets]. exact Hgets.
Defined.

(** C1 fails as stated: a request with both an inline document (one order)
    and a url (whose page has two orders) fetches the url and reports the
    two orders of the fetched page. *)
Lemma url_wins_over_inline_html :
  ProcessInput.html Sample.both_request = Some "inline page" /\
  ProcessInput.url Sample.both_request = Some "https://shop.example/orders" /\
  length (extract_orders (Sample.parser "inline page")) = 1 /\
  calls (snd (process_orders Sample.open_config Sample.network_up Sample.parser
                Sample.both_request None Sample.fresh_world))
  = [Get "https://shop.example/orders"] /\
  option_map Summary.orders
    (match fst (process_orders Sample.open_config Sample.network_up
                  Sample.parser Sample.both_request None Sample.fresh_world) with
     | Return s => Some s
     | Raise _ => None
     end) = Some 2.
Proof.
  repeat split; vm_compute; reflexivity.
Qed.

(** C9.  With credentials set and Telegram out of reach, the request
    creates its temporary file, the upload raises, and the file is still
    there when the request has ended: [os.remove] is reached only when
    [send_to_telegram] returns.  When Telegram replies, the file is gone. *)
Example temp_file_outlives_failed_delivery :
  fst (process_orders Sample.telegram_config Sample.network_down Sample.parser
         Sample.inline_request None Sample.fresh_world)
  = Raise RequestException /\
  exists_file "/tmp/tmp0.html"
    (snd (process_orders Sample.telegram_config Sample.network_down
            Sample.parser Sample.inline_request None Sample.fresh_world))
  = true /\
  exists_file "/tmp/tmp0.html"
    (snd (process_orders Sample.telegram_config Sample.network_up
            Sample.parser Sample.inline_request None Sample.fresh_world))
  = false.
Proof.
  repeat split; vm_compute; reflexivity.
Qed.

(** * Further properties *)

(** ** Order blocks at any depth *)

Lemma wrappers_below (cs : list node) :
  filter is_wrapper (flat_map (fun c => c :: descendants c) cs)
  = flat_map (fun c => ((if is_wrapper c then [c] else [])
                        ++ filter is_wrapper (descendants c))%list) cs.
Proof.
  induction cs as [|c cs IH]; [reflexivity|].
  cbn [flat_map]. rewrite filter_app, IH. cbn [filter app].
  now destruct (is_wrapper c).
Qed.

(** X10.  The order blocks of a tag are, child by child and in document order,
    the child itself when it is a table of class [wrapper], then the order
    blocks below that child: a block inside another block is an order of its
    own, listed after the block that holds it; text holds no block. *)
Theorem order_blocks_by_child (nm : string) (cls : list string) (cs : list node) :
  extract_orders (Tag nm cls cs)
  = flat_map (fun c => ((if is_wrapper c then [c] else [])
                        ++ extract_orders c)%list) cs /\
  (forall cs', extract_orders (Tag nm cls (cs ++ cs'))
               = (extract_orders (Tag nm cls cs)
                  ++ extract_orders (Tag nm cls cs'))%list) /\
  (forall s, extract_orders (NavigableString s) = []).
Proof.
  assert (forall l, extract_orders (Tag nm cls l)
                    = flat_map (fun c => ((if is_wrapper c then [c] else [])
                                          ++ extract_orders c)%list) l) as Heq.
  { intro l. unfold extract_orders, find_all_class. cbn [descendants].
    apply (wrappers_below l). }
  split; [apply Heq|]. split; [|reflexivity].
  intro cs'. rewrite !Heq. apply flat_map_app.
Qed.

(** ** Labelled fields *)

Lemma remove_from_skip (old a s : string) :
  Py.remove_from old (String.length a) (a ++ s) = Py.remove_from old 0 s.
Proof.
  induction a as [|c a IH]; [reflexivity|]. exact IH.
Qed.

Lemma remove_leading (old s : string) :
  Py.truthy old = true -> Py.remove old (old ++ s) = Py.remove old s.
Proof.
  intro H. unfold Py.remove. rewrite H.
  destruct old as [|c old]; [discriminate H|].
  change (String c old ++ s) with (String c (old ++ s)).
  cbn [Py.remove_from].
  change (String c (old ++ s)) with (String c old ++ s).
  rewrite prefix_append.
  replace (String.length (String c old) - 1) with (String.length old)
    by (cbn [String.length]; lia).
  apply remove_from_skip.
Qed.

Lemma remove_absent (old s : string) :
  Py.contains old s = false -> Py.remove old s = s.
Proof.
  intro H. unfold Py.remove. destruct (Py.truthy old); [|reflexivity].
  induction s as [|c s IH]; [reflexivity|].
  cbn [Py.contains] in H. apply orb_false_iff in H. destruct H as (Hp & Hc).
  cbn [Py.remove_from]. rewrite Hp. now rewrite (IH Hc).
Qed.

(** X11.  The usual shape of a labelled field, a parent holding the label [span]
    and then the value as text: the field is the stripped label followed by
    the stripped value, with the occurrences of the caption removed.  So a
    caption without surrounding blanks is removed and the stripped value is
    left; a caption with a blank at an end does not occur in the joined text
    and the stripped label stays in front of the value. *)
Theorem labelled_field_value
  (order_soup span : node) (nm : string) (cls0 cls1 : list string)
  (caption value : string) :
  find_string "span" caption order_soup
  = Some (Tag nm cls0 [Tag "span" cls1 [NavigableString caption];
                       NavigableString value], span) ->
  get_text_by_caption order_soup caption
  = Py.remove caption (Py.strip caption ++ Py.strip value) /\
  (Py.truthy caption = true -> Py.strip caption = caption ->
   Py.contains caption (Py.strip value) = false ->
   get_text_by_caption order_soup caption = Py.strip value) /\
  (Py.contains caption (Py.strip caption ++ Py.strip value) = false ->
   get_text_by_caption order_soup caption = Py.strip caption ++ Py.strip value).
Proof.
  intro Hfind.
  assert (get_text_by_caption order_soup caption
          = Py.remove caption (Py.strip caption ++ Py.strip value)) as Heq.
  { unfold get_text_by_caption. rewrite Hfind. f_equal.
    unfold get_text_strip, all_strings.
    cbn [descendants flat_map app map filter].
    destruct (Py.strip caption) as [|a sc], (Py.strip value) as [|b sv];
      cbn [Py.truthy Py.join fold_right];
      now rewrite ?append_nil_r. }
  split; [exact Heq|]. split.
  - intros Htruthy Hclean Habsent. rewrite Heq, Hclean.
    rewrite (remove_leading _ _ Htruthy). now apply remove_absent.
  - intro Habsent. rewrite Heq. now apply remove_absent.
Qed.

Lemma labelled_field_value_witness :
  get_text_by_caption Sample.bare_order caption_phone = Py.strip " 0912 " /\
  get_text_by_caption Sample.bare_order caption_order_number
  = Py.strip caption_order_number ++ Py.strip "1234".
Proof.
  split.
  - destruct (labelled_field_value
                Sample.bare_order
                (Tag "span" [] [NavigableString caption_phone])
                "td" [] [] caption_phone " 0912 " eq_refl) as (_ & H & _).
    apply H; reflexivity.
  - destruct (labelled_field_value
                Sample.bare_order
                (Tag "span" [] [NavigableString caption_order_number])
                "td" [] [] caption_order_number "1234" eq_refl) as (_ & _ & H).
    apply H; reflexivity.
Defined.

(** ** The route, path by path *)

Section Paths.

Variable cfg : Config.
Variable net : Network.
Variable html_parser : string -> node.

Lemma process_rejected (payload : ProcessInput.t) (key : option string) (w : World) :
  rejected cfg key = true ->
  process_orders cfg net html_parser payload key w
  = (Raise (HTTPException 401 "Invalid API key"), w).
Proof.
  intro H. unfold process_orders. now rewrite H.
Qed.

Lemma process_input_raises
  (payload : ProcessInput.t) (key : option string) (w w1 : World) (e : exn) :
  rejected cfg key = false ->
  resolve_html net payload w = (Raise e, w1) ->
  process_orders cfg net html_parser payload key w = (Raise e, w1).
Proof.
  intros Hkey Hin. unfold process_orders. rewrite Hkey. unfold bind.
  now rewrite Hin.
Qed.

Lemma process_no_document
  (payload : ProcessInput.t) (key : option string) (w w1 : World)
  (h : option string) :
  rejected cfg key = false ->
  resolve_html net payload w = (Return h, w1) ->
  Py.truthy_opt h = false ->
  process_orders cfg net html_parser payload key w
  = (Raise (HTTPException 400 "Provide 'url' or 'html'"), w1).
Proof.
  intros Hkey Hin Hh. unfold process_orders. rewrite Hkey. unfold bind.
  rewrite Hin. destruct h as [[|c s]|]; try reflexivity. discriminate Hh.
Qed.

Lemma process_no_blocks
  (payload : ProcessInput.t) (key : option string) (w w1 : World) (html : string) :
  rejected cfg key = false ->
  resolve_html net payload w = (Return (Some html), w1) ->
  Py.truthy html = true ->
  extract_orders (html_parser html) = [] ->
  process_orders cfg net html_parser payload key w
  = (Raise (HTTPException 404 "No orders found"), w1).
Proof.
  intros Hkey Hin Hhtml E. unfold process_orders. rewrite Hkey. unfold bind.
  rewrite Hin. destruct html; [discriminate Hhtml|]. now rewrite E.
Qed.

(** The four ways out of the input block. *)
Lemma resolve_cases (payload : ProcessInput.t) (w : World) :
  (Py.truthy_opt (ProcessInput.url payload) = false /\
   resolve_html net payload w = (Return (ProcessInput.html payload), w)) \/
  (exists url,
      ProcessInput.url payload = Some url /\ Py.truthy url = true /\
      ((get_reply net url = None /\
        resolve_html net payload w = (Raise RequestException, after_get url w)) \/
       (exists r,
           get_reply net url = Some r /\
           ((Requests.status_code r <> 200 /\
             resolve_html net payload w
             = (Raise (HTTPException 400
                         ("Fetch failed: "
                          ++ Py.str_of_nat (Requests.status_code r))),
                after_get url w)) \/
            (Requests.status_code r = 200 /\
             resolve_html net payload w
             = (Return (Some (Requests.text r)), after_get url w)))))).
Proof.
  unfold resolve_html.
  destruct (ProcessInput.url payload) as [[|c url]|];
    [left; now split | | left; now split].
  right. exists (String c url). split; [reflexivity|]. split; [reflexivity|].
  unfold bind, requests_get. fold (after_get (String c url) w).
  destruct (get_reply net (String c url)) as [r|]; [|left; now split].
  right. exists r. split; [reflexivity|].
  destruct (Nat.eqb (Requests.status_code r) 200) eqn:E.
  - right. apply Nat.eqb_eq in E. now split.
  - left. apply Nat.eqb_neq in E. now split.
Qed.

Lemma resolve_keeps_files (payload : ProcessInput.t) (w : World) :
  files (snd (resolve_html net payload w)) = files w /\
  created (snd (resolve_html net payload w)) = created w.
Proof.
  destruct (resolve_cases payload w)
    as [(_ & ->) | (url & _ & _ & [(_ & ->) | (r & _ & [(_ & ->) | (_ & ->)])])];
    now split.
Qed.

(** What a request that passed the key check can raise. *)
Lemma accepted_errors
  (payload : ProcessInput.t) (key : option string) (w : World) (e : exn) :
  rejected cfg key = false ->
  fst (process_orders cfg net html_parser payload key w) = Raise e ->
  (e = HTTPException 400 "Provide 'url' or 'html'" \/
   (exists status,
       status <> 200 /\
       e = HTTPException 400 ("Fetch failed: " ++ Py.str_of_nat status)) \/
   e = HTTPException 404 "No orders found" \/
   e = RequestException) /\
  (e <> RequestException ->
   files (snd (process_orders cfg net html_parser payload key w)) = files w /\
   created (snd (process_orders cfg net html_parser payload key w)) = created w).
Proof.
  intros Hkey.
  pose proof (resolve_keeps_files payload w) as Hfiles.
  destruct (resolve_html net payload w) as [[h|e0] w1] eqn:Hin.
  - destruct (Py.truthy_opt h) eqn:Hh.
    + destruct h as [html|]; [|discriminate Hh]. cbn [Py.truthy_opt] in Hh.
      destruct (extract_orders (html_parser html)) as [|b bs] eqn:E.
      * rewrite (process_no_blocks payload key w w1 html Hkey Hin Hh E).
        cbn [fst snd]. intro H. injection H as <-. split; [tauto|]. now intros _.
      * rewrite (process_after_input cfg net html_parser payload key w w1 html
                   Hkey Hin Hh); [|now rewrite E].
        destruct (ProcessInput.send_to_telegram payload); [|discriminate].
        destruct (configured cfg) eqn:C.
        -- rewrite (send_configured cfg net _ _ _ C). cbn zeta.
           destruct (post_reply net _ _); [discriminate|].
           cbn [fst snd]. intro H. injection H as <-. split; [tauto|].
           intro Hne. now elim Hne.
        -- rewrite (send_not_configured cfg net _ _ _ _ C). discriminate.
    + rewrite (process_no_document payload key w w1 h Hkey Hin Hh).
      cbn [fst snd]. intro H. injection H as <-. split; [tauto|]. now intros _.
  - rewrite (process_input_raises payload key w w1 e0 Hkey Hin).
    cbn [fst snd]. intro H. injection H as <-. split; [|now intros _].
    destruct (resolve_cases payload w)
      as [(_ & Hr) | (url & _ & _ & [(_ & Hr) | (r & _ & [(Hs & Hr) | (_ & Hr)])])];
      rewrite Hin in Hr; try discriminate Hr; injection Hr as -> _.
    + tauto.
    + right. left. now exists (Requests.status_code r).
Qed.

(** What a request that returns has been through. *)
Lemma returned_summary
  (payload : ProcessInput.t) (key : option string) (w w' : World) (s : Summary.t) :
  process_orders cfg net html_parser payload key w = (Return s, w') ->
  exists html w1 tg,
    rejected cfg key = false /\
    resolve_html net payload w = (Return (Some html), w1) /\
    Py.truthy html = true /\
    extract_orders (html_parser html) <> [] /\
    s = summary_of html_parser payload html tg /\
    (tg = None <-> ProcessInput.send_to_telegram payload = false).
Proof.
  destruct (rejected cfg key) eqn:Hkey;
    [rewrite (process_rejected payload key w Hkey); discriminate|].
  destruct (resolve_html net payload w) as [[h|e0] w1] eqn:Hin;
    [|rewrite (process_input_raises payload key w w1 e0 Hkey Hin); discriminate].
  destruct (Py.truthy_opt h) eqn:Hh;
    [|rewrite (process_no_document payload key w w1 h Hkey Hin Hh); discriminate].
  destruct h as [html|]; [|discriminate Hh]. cbn [Py.truthy_opt] in Hh.
  destruct (extract_orders (html_parser html)) as [|b bs] eqn:E;
    [rewrite (process_no_blocks payload key w w1 html Hkey Hin Hh E); discriminate|].
  assert (extract_orders (html_parser html) <> []) as Hblocks by now rewrite E.
  rewrite (process_after_input cfg net html_parser payload key w w1 html
             Hkey Hin Hh Hblocks).
  destruct (ProcessInput.send_to_telegram payload) eqn:Hsend.
  - destruct (send_to_telegram cfg net _ _ _ _) as [[r|e] w2]; [|discriminate].
    intro H. injection H as <- _. exists html, w1, (Some r).
    repeat split; try assumption; discriminate.
  - intro H. injection H as <- _. exists html, w1, None.
    repeat split; assumption.
Qed.

Lemma filter_absent (path : string) (fs : list (string * string)) :
  absent path fs ->
  filter (fun f => negb (String.eqb (fst f) path)) fs = fs.
Proof.
  intro H. induction fs as [|f fs IH]; [reflexivity|].
  cbn [filter]. rewrite (H f (or_introl eq_refl)). cbn [negb].
  f_equal. apply IH. intros g Hg. apply H. now right.
Qed.

Lemma filter_twice (path : string) (fs : list (string * string)) :
  filter (fun f => negb (String.eqb (fst f) path))
         (filter (fun f => negb (String.eqb (fst f) path)) fs)
  = filter (fun f => negb (String.eqb (fst f) path)) fs.
Proof.
  induction fs as [|f fs IH]; [reflexivity|].
  cbn [filter]. destruct (negb (String.eqb (fst f) path)) eqn:E; [|exact IH].
  cbn [filter]. now rewrite E, IH.
Qed.

(** The files once the temporary file of a world is removed again. *)
Lemma remove_report_files (final : string) (w1 w2 : World) :
  files w2 = files (with_report final w1) ->
  files (snd (try_pass (os_remove (tmp_path_in w1)) w2))
  = filter (fun f => negb (String.eqb (fst f) (tmp_path_in w1))) (files w1) /\
  created (snd (try_pass (os_remove (tmp_path_in w1)) w2)) = created w2.
Proof.
  intro Hfiles. unfold try_pass, os_remove. rewrite Hfiles.
  cbn [with_report files]. rewrite lookup_head. cbn [snd files created filter fst].
  rewrite String.eqb_refl. cbn [negb]. now rewrite filter_twice.
Qed.

(** X1.  The key check comes first and decides alone: the request is
    answered 401 exactly when a key is configured and the header is missing
    or different, and then nothing has been fetched, written or sent.  With
    no key configured every header passes; with a key, that key passes. *)
Theorem invalid_key_rejected_first
  (payload : ProcessInput.t) (key : option string) (w : World) :
  (fst (process_orders cfg net html_parser payload key w)
   = Raise (HTTPException 401 "Invalid API key")
   <-> rejected cfg key = true) /\
  (rejected cfg key = true ->
   snd (process_orders cfg net html_parser payload key w) = w) /\
  (rejected cfg key = true
   <-> Py.truthy (API_KEY cfg) = true /\ key <> Some (API_KEY cfg)).
Proof.
  split; [|split].
  - split.
    + intro H. destruct (rejected cfg key) eqn:Hkey; [reflexivity|].
      destruct (accepted_errors payload key w _ Hkey H)
        as ([E | [(st & _ & E) | [E | E]]] & _); discriminate E.
    + intro Hkey. now rewrite (process_rejected payload key w Hkey).
  - intro Hkey. now rewrite (process_rejected payload key w Hkey).
  - unfold rejected, same_key. split.
    + intro H. apply andb_true_iff in H. destruct H as (Ht & Hne).
      split; [exact Ht|]. intros ->. rewrite String.eqb_refl in Hne.
      discriminate Hne.
    + intros (Ht & Hne). rewrite Ht. cbn [andb].
      destruct key as [k|]; [|reflexivity].
      destruct (String.eqb k (API_KEY cfg)) eqn:E; [|reflexivity].
      apply String.eqb_eq in E. subst k. now elim Hne.
Qed.

(** X3.  A fetch that is answered with a status other than 200 ends the
    request with a 400 that names the status, and a fetch the transport
    fails ends it with that exception; in both cases the fetch is the only
    HTTP call made and no file is created, whatever inline document came
    with the url. *)
Theorem failed_fetch_ends_request
  (payload : ProcessInput.t) (key : option string) (w : World) (url : string) :
  rejected cfg key = false ->
  ProcessInput.url payload = Some url ->
  Py.truthy url = true ->
  (get_reply net url = None ->
   process_orders cfg net html_parser payload key w
   = (Raise RequestException, after_get url w)) /\
  (forall r,
      get_reply net url = Some r ->
      Requests.status_code r <> 200 ->
      process_orders cfg net html_parser payload key w
      = (Raise (HTTPException 400
                  ("Fetch failed: " ++ Py.str_of_nat (Requests.status_code r))),
         after_get url w)).
Proof.
  intros Hkey Hurl Htruthy.
  destruct (resolve_cases payload w)
    as [(Hno & _) | (u & Hu & _ & Hcases)];
    [rewrite Hurl in Hno; cbn [Py.truthy_opt] in Hno; congruence|].
  rewrite Hurl in Hu. injection Hu as <-. split.
  - intro Hnone.
    destruct Hcases as [(_ & Hr) | (r & Hr & _)]; [|congruence].
    now apply process_input_raises.
  - intros r Hr Hstatus.
    destruct Hcases as [(Hnone & _) | (r' & Hr' & [(_ & Hres) | (H200 & _)])];
      [congruence | | ].
    + assert (r' = r) as -> by congruence. now apply process_input_raises.
    + assert (r' = r) as -> by congruence. now elim Hstatus.
Qed.

(** X4.  Without a document the request ends with the 400 that asks for
    one: when [url] and [html] are both absent or empty (and then nothing
    is fetched), and also when the url was fetched with status 200 and the
    body is empty. *)
Theorem missing_document_is_bad_request
  (payload : ProcessInput.t) (key : option string) (w : World) :
  rejected cfg key = false ->
  (Py.truthy_opt (ProcessInput.url payload) = false ->
   Py.truthy_opt (ProcessInput.html payload) = false ->
   process_orders cfg net html_parser payload key w
   = (Raise (HTTPException 400 "Provide 'url' or 'html'"), w)) /\
  (forall url r,
      ProcessInput.url payload = Some url -> Py.truthy url = true ->
      get_reply net url = Some r ->
      Requests.status_code r = 200 ->
      Requests.text r = EmptyString ->
      process_orders cfg net html_parser payload key w
      = (Raise (HTTPException 400 "Provide 'url' or 'html'"), after_get url w)).
Proof.
  intro Hkey. split.
  - intros Hurl Hhtml.
    destruct (resolve_cases payload w) as [(_ & Hr) | (u & Hu & Ht & _)].
    + now apply (process_no_document payload key w w (ProcessInput.html payload)).
    + rewrite Hu in Hurl. cbn [Py.truthy_opt] in Hurl. congruence.
  - intros url r Hurl Htruthy Hr H200 Hempty.
    destruct (resolve_cases payload w)
      as [(Hno & _) | (u & Hu & _ & Hcases)];
      [rewrite Hurl in Hno; cbn [Py.truthy_opt] in Hno; congruence|].
    rewrite Hurl in Hu. injection Hu as <-.
    destruct Hcases as [(Hnone & _) | (r' & Hr' & [(Hs & _) | (_ & Hres)])];
      [congruence | | ].
    + assert (r' = r) as -> by congruence. now elim Hs.
    + assert (r' = r) as -> by congruence.
      apply (process_no_document payload key w (after_get url w)
               (Some (Requests.text r)) Hkey Hres).
      now rewrite Hempty.
Qed.

(** X5.  A summary the route returns says [ok], counts at least one order,
    and echoes the request: [sent_to_telegram] and [filename] are the
    request's, [telegram_result] is there exactly when delivery was asked
    for, and [html] exactly when the document was asked for. *)
Theorem summary_echoes_request
  (payload : ProcessInput.t) (key : option string) (w w' : World) (s : Summary.t) :
  process_orders cfg net html_parser payload key w = (Return s, w') ->
  Summary.ok s = true /\
  1 <= Summary.orders s /\
  Summary.sent_to_telegram s = ProcessInput.send_to_telegram payload /\
  Summary.filename s = ProcessInput.filename payload /\
  (Summary.telegram_result s = None
   <-> ProcessInput.send_to_telegram payload = false) /\
  (Summary.html s = None <-> ProcessInput.return_html payload = false).
Proof.
  intro H.
  destruct (returned_summary payload key w w' s H)
    as (html & w1 & tg & _ & _ & _ & Hblocks & -> & Htg).
  unfold summary_of.
  cbn [Summary.ok Summary.orders Summary.sent_to_telegram Summary.filename
       Summary.telegram_result Summary.html].
  split; [reflexivity|]. split.
  - rewrite length_map.
    destruct (extract_orders (html_parser html)); [now elim Hblocks|].
    cbn [length]. lia.
  - split; [reflexivity|]. split; [reflexivity|]. split; [exact Htg|].
    destruct (ProcessInput.return_html payload); split;
      intro E; try reflexivity; discriminate E.
Qed.

(** The HTTP calls after the input block: none, or the one upload. *)
Lemma upload_after_input
  (payload : ProcessInput.t) (key : option string) (w w1 : World)
  (r : result (option string)) :
  rejected cfg key = false ->
  resolve_html net payload w = (r, w1) ->
  exists p,
    calls (snd (process_orders cfg net html_parser payload key w))
    = (calls w1 ++ p)%list /\
    (p = [] \/
     (ProcessInput.send_to_telegram payload = true /\
      configured cfg = true /\
      exists html,
        r = Return (Some html) /\
        p = [Post (telegram_url cfg)
               (telegram_upload cfg (report_of html_parser html)
                  (ProcessInput.filename payload))])).
Proof.
  intros Hkey Hin.
  assert (forall e, process_orders cfg net html_parser payload key w = (Raise e, w1) ->
                    exists p,
                      calls (snd (process_orders cfg net html_parser payload key w))
                      = (calls w1 ++ p)%list /\
                      (p = [] \/
                       (ProcessInput.send_to_telegram payload = true /\
                        configured cfg = true /\
                        exists html,
                          r = Return (Some html) /\
                          p = [Post (telegram_url cfg)
                                 (telegram_upload cfg (report_of html_parser html)
                                    (ProcessInput.filename payload))]))) as Hraise.
  { intros e ->. exists []. cbn [snd]. rewrite app_nil_r. split; [reflexivity | now left]. }
  destruct r as [h|e0];
    [|eapply Hraise; eapply process_input_raises; eassumption].
  destruct (Py.truthy_opt h) eqn:Hh;
    [|eapply Hraise; eapply process_no_document; eassumption].
  destruct h as [html|]; [|discriminate Hh]. cbn [Py.truthy_opt] in Hh.
  destruct (extract_orders (html_parser html)) as [|b bs] eqn:E;
    [eapply Hraise; eapply process_no_blocks; eassumption|].
  clear Hraise.
  rewrite (process_after_input cfg net html_parser payload key w w1 html
             Hkey Hin Hh); [|now rewrite E].
  destruct (ProcessInput.send_to_telegram payload) eqn:Hsend.
  - destruct (configured cfg) eqn:C.
    + rewrite (send_configured cfg net _ _ _ C). cbn zeta.
      exists [Post (telegram_url cfg)
                (telegram_upload cfg (report_of html_parser html)
                   (ProcessInput.filename payload))].
      split.
      * destruct (post_reply net _ _); cbn [snd];
          [rewrite try_remove_calls|]; reflexivity.
      * right. split; [reflexivity|]. split; [reflexivity|]. now exists html.
    + rewrite (send_not_configured cfg net _ _ _ _ C). exists [].
      cbn [snd]. rewrite try_remove_calls, app_nil_r.
      split; [reflexivity | now left].
  - exists []. cbn [snd]. rewrite try_remove_calls, app_nil_r.
    split; [reflexivity | now left].
Qed.

(** X6.  A request makes at most two HTTP calls and repeats none: first at
    most one fetch, of the request's non-empty url, then at most one
    upload.  The upload is made only when delivery is asked for and the
    credentials are set, and its document is the report rendered from the
    document the input block of this request produced, under the request's
    file name. *)
Theorem at_most_one_fetch_and_upload
  (payload : ProcessInput.t) (key : option string) (w : World) :
  exists g p,
    calls (snd (process_orders cfg net html_parser payload key w))
    = (calls w ++ g ++ p)%list /\
    (g = [] \/
     exists url,
       ProcessInput.url payload = Some url /\ Py.truthy url = true /\
       g = [Get url]) /\
    (p = [] \/
     (ProcessInput.send_to_telegram payload = true /\
      configured cfg = true /\
      exists html,
        fst (resolve_html net payload w) = Return (Some html) /\
        p = [Post ("https://api.telegram.org/bot" ++ TELEGRAM_BOT_TOKEN cfg
                   ++ "/sendDocument")
               {| chat_id := TELEGRAM_CHAT_ID cfg;
                  caption := default_caption;
                  parse_mode := "HTML";
                  document_name := ProcessInput.filename payload;
                  document_bytes :=
                    generate_html_for_orders
                      (map extract_order_data
                         (extract_orders (html_parser html)));
                  document_type := "text/html; charset=utf-8" |}])).
Proof.
  destruct (rejected cfg key) eqn:Hkey.
  - exists [], []. rewrite (process_rejected payload key w Hkey).
    cbn [snd app]. rewrite app_nil_r. split; [reflexivity|]. split; now left.
  - destruct (resolve_html net payload w) as [r w1] eqn:Hin.
    destruct (upload_after_input payload key w w1 r Hkey Hin)
      as (p & Hcalls & Hp).
    cbn [fst].
    assert (p = [] \/
            (ProcessInput.send_to_telegram payload = true /\
             configured cfg = true /\
             exists html,
               r = Return (Some html) /\
               p = [Post ("https://api.telegram.org/bot" ++ TELEGRAM_BOT_TOKEN cfg
                          ++ "/sendDocument")
                      {| chat_id := TELEGRAM_CHAT_ID cfg;
                         caption := default_caption;
                         parse_mode := "HTML";
                         document_name := ProcessInput.filename payload;
                         document_bytes :=
                           generate_html_for_orders
                             (map extract_order_data
                                (extract_orders (html_parser html)));
                         document_type := "text/html; charset=utf-8" |}]))
      as Hp'.
    { destruct Hp as [-> | (Hs & C & html & Hr & ->)]; [now left|].
      right. split; [exact Hs|]. split; [exact C|]. now exists html. }
    destruct (resolve_cases payload w)
      as [(_ & Hr) | (url & Hu & Ht & Hcases)].
    + exists [], p. rewrite Hcalls. rewrite Hin in Hr. injection Hr as _ ->.
      cbn [app]. split; [reflexivity|]. split; [now left | exact Hp'].
    + exists [Get url], p. rewrite Hcalls.
      assert (w1 = after_get url w) as ->.
      { destruct Hcases as [(_ & Hr) | (r0 & _ & [(_ & Hr) | (_ & Hr)])];
          rewrite Hin in Hr; now injection Hr. }
      cbn [after_get calls]. rewrite <- app_assoc.
      split; [reflexivity|]. split; [|exact Hp'].
      right. now exists url.
Qed.

(** X7.  The route leaves the files as it found them.  A request answered
    with an HTTP error has created no file.  A request that returns has
    created one temporary file and removed it again: the file is gone, and
    when its name was free before, the files are those from before. *)
Theorem files_left_as_found
  (payload : ProcessInput.t) (key : option string) (w : World) :
  (forall status detail,
      fst (process_orders cfg net html_parser payload key w)
      = Raise (HTTPException status detail) ->
      files (snd (process_orders cfg net html_parser payload key w)) = files w /\
      created (snd (process_orders cfg net html_parser payload key w))
      = created w) /\
  (forall s,
      fst (process_orders cfg net html_parser payload key w) = Return s ->
      exists_file (tmp_path_in w)
        (snd (process_orders cfg net html_parser payload key w)) = false /\
      created (snd (process_orders cfg net html_parser payload key w))
      = S (created w) /\
      (absent (tmp_path_in w) (files w) ->
       files (snd (process_orders cfg net html_parser payload key w))
       = files w)).
Proof.
  split.
  - intros status detail H. destruct (rejected cfg key) eqn:Hkey.
    + rewrite (process_rejected payload key w Hkey). now split.
    + apply (proj2 (accepted_errors payload key w _ Hkey H)). discriminate.
  - intros s H.
    destruct (process_orders cfg net html_parser payload key w) as [r w'] eqn:Hrun.
    cbn [fst snd] in *. subst r.
    destruct (returned_summary payload key w w' s Hrun)
      as (html & w1 & tg & Hkey & Hin & Hh & Hblocks & _ & _).
    pose proof (resolve_keeps_files payload w) as (Hf & Hc).
    rewrite Hin in Hf, Hc. cbn [snd] in Hf, Hc.
    assert (tmp_path_in w1 = tmp_path_in w) as Hpath
      by (unfold tmp_path_in; now rewrite Hc).
    rewrite (process_after_input cfg net html_parser payload key w w1 html
               Hkey Hin Hh Hblocks) in Hrun.
    assert (exists w2,
               files w2 = files (with_report (report_of html_parser html) w1) /\
               created w2 = S (created w1) /\
               w' = snd (try_pass (os_remove (tmp_path_in w1)) w2))
      as (w2 & Hfiles & Hcreated & ->).
    { destruct (ProcessInput.send_to_telegram payload).
      - destruct (configured cfg) eqn:C.
        + rewrite (send_configured cfg net _ _ _ C) in Hrun. cbn zeta in Hrun.
          destruct (post_reply net _ _); [|discriminate Hrun].
          injection Hrun as _ <-. eexists.
          split; [|split; [|reflexivity]]; reflexivity.
        + rewrite (send_not_configured cfg net _ _ _ _ C) in Hrun.
          injection Hrun as _ <-. eexists.
          split; [|split; [|reflexivity]]; reflexivity.
      - injection Hrun as _ <-. eexists.
        split; [|split; [|reflexivity]]; reflexivity. }
    destruct (remove_report_files _ w1 w2 Hfiles) as (Hrem & Hcr).
    split; [|split].
    + rewrite <- Hpath. apply try_remove_gone.
    + now rewrite Hcr, Hcreated, Hc.
    + intro Habsent. rewrite Hrem, Hpath, Hf. now apply filter_absent.
Qed.

(** X8.  When delivery is asked for and the credentials are set, the one
    call made after the input block posts, to the bot's [sendDocument]
    address, the chat id, the default caption, the request's file name and
    as document the rendered report itself, whether Telegram then answers
    or not; a summary that carries the document carries the same text. *)
Theorem uploaded_report_is_the_report
  (payload : ProcessInput.t) (key : option string) (w w1 : World) (html : string) :
  rejected cfg key = false ->
  resolve_html net payload w = (Return (Some html), w1) ->
  Py.truthy html = true ->
  extract_orders (html_parser html) <> [] ->
  ProcessInput.send_to_telegram payload = true ->
  configured cfg = true ->
  calls (snd (process_orders cfg net html_parser payload key w))
  = (calls w1
     ++ [Post ("https://api.telegram.org/bot" ++ TELEGRAM_BOT_TOKEN cfg
               ++ "/sendDocument")
           {| chat_id := TELEGRAM_CHAT_ID cfg;
              caption := default_caption;
              parse_mode := "HTML";
              document_name := ProcessInput.filename payload;
              document_bytes :=
                generate_html_for_orders
                  (map extract_order_data (extract_orders (html_parser html)));
              document_type := "text/html; charset=utf-8" |}])%list /\
  (forall s,
      fst (process_orders cfg net html_parser payload key w) = Return s ->
      ProcessInput.return_html payload = true ->
      Summary.html s
      = Some (generate_html_for_orders
                (map extract_order_data (extract_orders (html_parser html))))).
Proof.
  intros Hkey Hin Hh Hblocks Hsend C.
  rewrite (process_after_input cfg net html_parser payload key w w1 html
             Hkey Hin Hh Hblocks).
  rewrite Hsend, (send_configured cfg net _ _ _ C). cbn zeta.
  destruct (post_reply net _ _); cbn [fst snd].
  - rewrite try_remove_calls. split; [reflexivity|].
    intros s H Hret. injection H as <-.
    unfold summary_of. cbn [Summary.html]. now rewrite Hret.
  - split; [reflexivity | discriminate].
Qed.

(** X9.  With credentials set, [send_to_telegram] makes exactly one call,
    the upload, and touches no file.  It raises when the transport fails.
    When Telegram replies it returns: [ok] tells whether the status is
    outside 400..599, and the payload is the parsed body, or the status and
    the text when the body is not JSON. *)
Theorem send_to_telegram_replies
  (file_bytes filename cap : string) (w : World) :
  configured cfg = true ->
  calls (snd (send_to_telegram cfg net file_bytes filename cap w))
  = (calls w
     ++ [Post ("https://api.telegram.org/bot" ++ TELEGRAM_BOT_TOKEN cfg
               ++ "/sendDocument")
           {| chat_id := TELEGRAM_CHAT_ID cfg;
              caption := cap;
              parse_mode := "HTML";
              document_name := filename;
              document_bytes := file_bytes;
              document_type := "text/html; charset=utf-8" |}])%list /\
  files (snd (send_to_telegram cfg net file_bytes filename cap w)) = files w /\
  match post_reply net
          ("https://api.telegram.org/bot" ++ TELEGRAM_BOT_TOKEN cfg
           ++ "/sendDocument")
          {| chat_id := TELEGRAM_CHAT_ID cfg;
             caption := cap;
             parse_mode := "HTML";
             document_name := filename;
             document_bytes := file_bytes;
             document_type := "text/html; charset=utf-8" |} with
  | None =>
      fst (send_to_telegram cfg net file_bytes filename cap w)
      = Raise RequestException
  | Some resp =>
      exists r,
        fst (send_to_telegram cfg net file_bytes filename cap w) = Return r /\
        (tg_ok r = true
         <-> Requests.status_code resp < 400 \/ 600 <= Requests.status_code resp) /\
        tg_error r = None /\
        tg_resp r
        = Some (match Requests.json_body resp with
                | Some j => j
                | None =>
                    JObject [("status_code", JNumber (Requests.status_code resp));
                             ("text", JString (Requests.text resp))]
                end)
  end.
Proof.
  unfold configured, send_to_telegram. intro H.
  apply andb_true_iff in H. destruct H as (-> & ->). cbn [negb orb].
  unfold bind, requests_post.
  destruct (post_reply net _ _) as [resp|]; cbn [fst snd calls files ret].
  - split; [reflexivity|]. split; [reflexivity|].
    eexists. split; [reflexivity|]. cbn [tg_ok tg_error tg_resp].
    split; [|split; reflexivity].
    unfold Requests.ok. rewrite negb_true_iff, andb_false_iff.
    rewrite Nat.leb_gt, Nat.ltb_ge. reflexivity.
  - split; [reflexivity|]. split; reflexivity.
Qed.

End Paths.

(** ** The paths on sample requests *)

Lemma invalid_key_rejected_first_witness :
  snd (process_orders Case.keyed_config Sample.network_up Sample.parser
         Case.url_request (Some "guess") Sample.fresh_world)
  = Sample.fresh_world.
Proof.
  destruct (invalid_key_rejected_first
              Case.keyed_config Sample.network_up Sample.parser
              Case.url_request (Some "guess") Sample.fresh_world)
    as (_ & H & _).
  apply H. reflexivity.
Defined.

Lemma failed_fetch_ends_request_witness :
  process_orders Sample.open_config Case.network_busy Sample.parser
    Case.url_request None Sample.fresh_world
  = (Raise (HTTPException 400 "Fetch failed: 503"),
     {| calls := [Get "https://shop.example/orders"];
        files := [];
        created := 0 |}) /\
  process_orders Sample.open_config Sample.network_down Sample.parser
    Case.url_request None Sample.fresh_world
  = (Raise RequestException,
     {| calls := [Get "https://shop.example/orders"];
        files := [];
        created := 0 |}).
Proof.
  split.
  - destruct (failed_fetch_ends_request
                Sample.open_config Case.network_busy Sample.parser
                Case.url_request None Sample.fresh_world
                "https://shop.example/orders" eq_refl eq_refl eq_refl)
      as (_ & H).
    apply (H _ eq_refl). discriminate.
  - destruct (failed_fetch_ends_request
                Sample.open_config Sample.network_down Sample.parser
                Case.url_request None Sample.fresh_world
                "https://shop.example/orders" eq_refl eq_refl eq_refl)
      as (H & _).
    apply H. reflexivity.
Defined.

Lemma missing_document_is_bad_request_witness :
  process_orders Sample.open_config Sample.network_up Sample.parser
    Case.nothing_request None Sample.fresh_world
  = (Raise (HTTPException 400 "Provide 'url' or 'html'"), Sample.fresh_world) /\
  process_orders Sample.open_config Case.network_blank Sample.parser
    Case.url_request None Sample.fresh_world
  = (Raise (HTTPException 400 "Provide 'url' or 'html'"),
     after_get "https://shop.example/orders" Sample.fresh_world).
Proof.
  split.
  - destruct (missing_document_is_bad_request
                Sample.open_config Sample.network_up Sample.parser
                Case.nothing_request None Sample.fresh_world eq_refl)
      as (H & _).
    apply H; reflexivity.
  - destruct (missing_document_is_bad_request
                Sample.open_config Case.network_blank Sample.parser
                Case.url_request None Sample.fresh_world eq_refl)
      as (_ & H).
    apply (H "https://shop.example/orders" _ eq_refl eq_refl eq_refl);
      reflexivity.
Defined.

Lemma summary_echoes_request_witness :
  1 <= Summary.orders
         (summary_of Sample.parser Case.url_request "remote page"
            (Some not_configured)) /\
  Summary.filename
    (summary_of Sample.parser Case.url_request "remote page"
       (Some not_configured)) = "report.html".
Proof.
  assert (process_orders Sample.open_config Sample.network_up Sample.parser
            Case.url_request None Sample.fresh_world
          = (Return (summary_of Sample.parser Case.url_request "remote page"
                       (Some not_configured)),
             {| calls := [Get "https://shop.example/orders"];
                files := [];
                created := 1 |})) as Hrun
    by (vm_compute; reflexivity).
  destruct (summary_echoes_request _ _ _ _ _ _ _ _ Hrun)
    as (_ & Horders & _ & Hname & _).
  split; [exact Horders | exact Hname].
Defined.

Lemma files_left_as_found_witness :
  files (snd (process_orders Sample.open_config Sample.network_up Sample.parser
                Sample.inline_request None Sample.fresh_world)) = [] /\
  files (snd (process_orders Sample.open_config Sample.network_up Sample.parser
                Sample.empty_request None Sample.fresh_world)) = [].
Proof.
  split.
  - destruct (files_left_as_found
                Sample.open_config Sample.network_up Sample.parser
                Sample.inline_request None Sample.fresh_world) as (_ & H).
    destruct (H _ eq_refl) as (_ & _ & Hfiles).
    apply Hfiles. intros f [].
  - destruct (files_left_as_found
                Sample.open_config Sample.network_up Sample.parser
                Sample.empty_request None Sample.fresh_world) as (H & _).
    destruct (H _ _ eq_refl) as (Hfiles & _). exact Hfiles.
Defined.

Lemma uploaded_report_is_the_report_witness :
  calls (snd (process_orders Sample.telegram_config Sample.network_down
                Sample.parser Sample.inline_request None Sample.fresh_world))
  = [Post "https://api.telegram.org/bot123:abc/sendDocument"
       {| chat_id := "42";
          caption := default_caption;
          parse_mode := "HTML";
          document_name := "all_orders.html";
          document_bytes :=
            generate_html_for_orders
              (map extract_order_data
                 (extract_orders (Sample.parser "inline page")));
          document_type := "text/html; charset=utf-8" |}].
Proof.
  assert (extract_orders (Sample.parser "inline page") <> []) as Hblocks
    by discriminate.
  destruct (uploaded_report_is_the_report
              Sample.telegram_config Sample.network_down Sample.parser
              Sample.inline_request None Sample.fresh_world Sample.fresh_world
              "inline page" eq_refl eq_refl eq_refl Hblocks eq_refl eq_refl)
    as (H & _).
  exact H.
Defined.

Lemma send_to_telegram_replies_witness :
  exists r,
    fst (send_to_telegram Sample.telegram_config Case.network_blank
           "report" "report.html" default_caption Sample.fresh_world)
    = Return r /\
    (tg_ok r = true <-> 502 < 400 \/ 600 <= 502) /\
    tg_error r = None /\
    tg_resp r = Some (JObject [("status_code", JNumber 502);
                               ("text", JString "Bad Gateway")]).
Proof.
  destruct (send_to_telegram_replies
              Sample.telegram_config Case.network_blank
              "report" "report.html" default_caption Sample.fresh_world eq_refl)
    as (_ & _ & H).
  exact H.
Defined.
